(** * Genei order-management backend: trader-text pipeline and order parsing

    A shallow embedding of [src/main.py]: the four-stage trader-text
    workflow (normalize, detect algorithm, extract parameters, render),
    the natural-language order parser with its rule-based fallback, and the
    autocomplete suggester, followed by the properties proved about them.

    Modelling conventions.
    - A Python [str] is a [string]: the bytes of the UTF-8 text.  The string
      methods and the regular-expression classes are modelled exactly on
      ASCII text; a byte above 127 is left unchanged by [lower]/[upper] and
      belongs to no character class.
    - A call to the chat-completion backend is an explicit [Call] node of the
      program tree [prog]; its answer is a [reply], either the content of
      the first choice or the exception raised by the call.
    - Library behaviour the source relies on but does not define
      ([json.loads], [str()] of floats and containers, pydantic's lax
      coercions) and the start-up flag [LLM_AVAILABLE] are section
      variables: the theorems hold for every value of them. *)

From Stdlib Require Import ZArith QArith Ascii String List Bool Lia.
From stdpp Require Import gmap strings.

Set Warnings "-register-all".
#[local] Open Scope nat_scope.

(** ** Python string primitives *)

Module PyStr.

Definition code (c : ascii) : nat := nat_of_ascii c.

(** [str.isspace] on an ASCII character: TAB..CR, FS..US and the blank.
    The same set is what [str.strip] removes and what the regular
    expression class [\s] matches. *)
Definition isspace (c : ascii) : bool :=
  let n := code c in
  ((9 <=? n) && (n <=? 13)) || ((28 <=? n) && (n <=? 32)).

Definition isdigit (c : ascii) : bool :=
  let n := code c in (48 <=? n) && (n <=? 57).

Definition isupper (c : ascii) : bool :=
  let n := code c in (65 <=? n) && (n <=? 90).

Definition islower (c : ascii) : bool :=
  let n := code c in (97 <=? n) && (n <=? 122).

(** The class [\w]: letters, digits and the underscore. *)
Definition isword (c : ascii) : bool :=
  isdigit c || isupper c || islower c || (code c =? 95).

Definition lower_char (c : ascii) : ascii :=
  if isupper c then ascii_of_nat (code c + 32) else c.

Definition upper_char (c : ascii) : ascii :=
  if islower c then ascii_of_nat (code c - 32) else c.

Fixpoint smap (f : ascii -> ascii) (s : string) : string :=
  match s with
  | EmptyString => EmptyString
  | String c t => String (f c) (smap f t)
  end.

(** [s.lower()] and [s.upper()]. *)
Definition lower : string -> string := smap lower_char.

(** [s.capitalize()]: first character upper-cased, the rest lower-cased. *)
Definition capitalize (s : string) : string :=
  match s with
  | EmptyString => EmptyString
  | String c t => String (upper_char c) (lower t)
  end.

Definition is_empty (s : string) : bool :=
  match s with EmptyString => true | String _ _ => false end.

Fixpoint lstrip (s : string) : string :=
  match s with
  | EmptyString => EmptyString
  | String c t => if isspace c then lstrip t else s
  end.

Fixpoint rstrip (s : string) : string :=
  match s with
  | EmptyString => EmptyString
  | String c t =>
      let t' := rstrip t in
      if isspace c && is_empty t' then EmptyString else String c t'
  end.

(** [s.strip()]. *)
Definition strip (s : string) : string := rstrip (lstrip s).

(** [s.startswith(p)]. *)
Fixpoint startswith (s p : string) : bool :=
  match p, s with
  | EmptyString, _ => true
  | String a p', String b s' => Ascii.eqb a b && startswith s' p'
  | String _ _, EmptyString => false
  end.

(** [sub in s]: [sub] occurs in [s] as a contiguous substring. *)
Fixpoint contains (sub s : string) : bool :=
  startswith s sub ||
  match s with
  | EmptyString => false
  | String _ t => contains sub t
  end.

(** The first [n] characters and what follows them. *)
Fixpoint take (n : nat) (s : string) : string :=
  match n, s with
  | S n', String c t => String c (take n' t)
  | _, _ => EmptyString
  end.

Fixpoint drop (n : nat) (s : string) : string :=
  match n, s with
  | S n', String _ t => drop n' t
  | _, _ => s
  end.

Definition digit_value (c : ascii) : Z := Z.of_nat (code c - 48).

Fixpoint int_acc (acc : Z) (s : string) : Z :=
  match s with
  | EmptyString => acc
  | String c t => int_acc (10 * acc + digit_value c)%Z t
  end.

(** [int(s)] on a string of decimal digits. *)
Definition int_of_digits (s : string) : Z := int_acc 0 s.

(** The digits before the first character that is not one, and the rest. *)
Fixpoint span_digits (s : string) : string * string :=
  match s with
  | String c t =>
      if isdigit c then let '(d, r) := span_digits t in (String c d, r)
      else (EmptyString, s)
  | EmptyString => (EmptyString, EmptyString)
  end.

(** [float(s)] on a literal of the shape digits, optional point, digits
    (what the price patterns capture).  The result is the exact decimal
    value; Python rounds it to the nearest binary64. *)
Definition float_of_decimal (s : string) : Q :=
  let '(ip, r) := span_digits s in
  let fp := match r with String "."%char f => fst (span_digits f) | _ => EmptyString end in
  Qred (Qmake (int_of_digits (ip +:+ fp))
              (Z.to_pos (10 ^ Z.of_nat (String.length fp)))).

End PyStr.

(** ** Regular expressions

    The fragment of Python's [re] that the source uses, with the semantics
    of its backtracking matcher: [matches] lists the ways a pattern can
    match at the head of the text in the order the matcher tries them
    (a greedy repetition longest first, an alternation left to right), and
    [search] takes the first way at the leftmost position that has one. *)

Module Re.
Import PyStr.

Inductive regex : Type :=
| Chars (lit : string)                              (* literal text *)
| Class (p : ascii -> bool) (lo : nat) (hi : option nat)
                                                    (* greedy [p{lo,hi}] *)
| Seq (r1 r2 : regex)
| Alt (r1 r2 : regex)
| Group (n : nat) (r : regex).                      (* capturing group n *)

(** One way of matching: the text consumed, the text left, the groups. *)
Definition way : Type := string * string * gmap nat string.

Definition more (hi : option nat) : bool :=
  match hi with Some 0 => false | _ => true end.

Definition less (hi : option nat) : option nat :=
  match hi with Some n => Some (pred n) | None => None end.

(** The runs of at most [hi] characters of class [p] at the head of [s],
    longest first, each with the text that follows it. *)
Fixpoint runs (p : ascii -> bool) (hi : option nat) (s : string)
  : list (string * string) :=
  match s with
  | String c t =>
      if p c && more hi
      then map (fun ur => (String c (fst ur), snd ur)) (runs p (less hi) t)
           ++ [(EmptyString, s)]
      else [(EmptyString, s)]
  | EmptyString => [(EmptyString, EmptyString)]
  end.

Definition fold (ic : bool) (s : string) : string :=
  if ic then lower s else s.

(** A way continued after the text [u] was consumed, and a way recorded as
    the content of group [n]. *)
Definition extend (u : string) (w : way) : way :=
  let '(u2, s2, g2) := w in (u +:+ u2, s2, g2).

Definition capture (n : nat) (w : way) : way :=
  let '(u, s', g') := w in (u, s', <[n := u]> g').

Fixpoint matches (ic : bool) (r : regex) (s : string) (g : gmap nat string)
  : list way :=
  match r with
  | Chars lit =>
      let n := String.length lit in
      if String.eqb (fold ic (take n s)) (fold ic lit)
      then [(take n s, drop n s, g)] else []
  | Class p lo hi =>
      map (fun ur => (fst ur, snd ur, g))
          (List.filter (fun ur => lo <=? String.length (fst ur)) (runs p hi s))
  | Seq r1 r2 =>
      flat_map (fun w1 : way =>
                  let '(u1, s1, g1) := w1 in
                  map (extend u1) (matches ic r2 s1 g1))
               (matches ic r1 s g)
  | Alt r1 r2 => matches ic r1 s g ++ matches ic r2 s g
  | Group n r1 => map (capture n) (matches ic r1 s g)
  end.

(** A match object: where it starts, [group(0)], the numbered groups. *)
Record match_object : Type := MatchObject {
  m_start : nat;
  m_text : string;
  m_groups : gmap nat string
}.

Fixpoint search_from (ic : bool) (r : regex) (pos : nat) (s : string)
  : option match_object :=
  match matches ic r s ∅ with
  | (u, _, g) :: _ => Some (MatchObject pos u g)
  | [] =>
      match s with
      | String _ t => search_from ic r (S pos) t
      | EmptyString => None
      end
  end.

(** [re.search(r, s)], and [re.search(r, s, re.IGNORECASE)] when [ic]. *)
Definition search (ic : bool) (r : regex) (s : string) : option match_object :=
  search_from ic r 0 s.

(** [m.group(n)] for a group that took part in the match (every group of
    the source's patterns lies on the spine of its pattern, so it does). *)
Definition group (m : match_object) (n : nat) : string :=
  match n with
  | 0 => m_text m
  | _ => default EmptyString (m_groups m !! n)
  end.

Definition any_char (c : ascii) : bool := true.
Definition is_char (a : ascii) (c : ascii) : bool := Ascii.eqb a c.

Definition plus (p : ascii -> bool) : regex := Class p 1 None.
Definition star (p : ascii -> bool) : regex := Class p 0 None.
Definition opt (p : ascii -> bool) : regex := Class p 0 (Some 1).

Module Notations.
Infix "+>" := Seq (at level 60, right associativity).
End Notations.

End Re.

(** ** JSON values

    What [json.loads] returns and what the [parameters] dictionary holds:
    Python's [None], [bool], [int], [float], [str], [list] and [dict] with
    string keys.  A float is represented by the exact rational value of its
    literal. *)

Module Json.
Import PyStr.

Inductive json : Type :=
| JNull
| JBool (b : bool)
| JInt (z : Z)
| JFloat (q : Q)
| JStr (s : string)
| JArr (l : list json)
| JObj (m : gmap string json).

(** Python truthiness, as tested by [if v:] and [if not v:]. *)
Definition truthy (v : json) : bool :=
  match v with
  | JNull => false
  | JBool b => b
  | JInt z => negb (z =? 0)%Z
  | JFloat q => negb (Qnum q =? 0)%Z
  | JStr s => negb (is_empty s)
  | JArr l => match l with [] => false | _ => true end
  | JObj m => negb (bool_decide (dom m = ∅))
  end.

(** [d.get(k)] and [d.get(k, dflt)] on a dictionary. *)
Definition dict_get (m : gmap string json) (k : string) (dflt : json) : json :=
  default dflt (m !! k).

(** *** A reference decoder

    [loads] decodes JSON text the way [json.loads] does, for ASCII text
    without [\u] escapes and without the [NaN]/[Infinity] extensions (on
    those it reports a decode error).  It is the decoder at which the
    examples are evaluated; the theorems are stated for any decoder. *)

Definition is_ws (c : ascii) : bool :=
  let n := code c in (n =? 32) || (n =? 9) || (n =? 10) || (n =? 13).

Fixpoint skip_ws (s : string) : string :=
  match s with
  | String c t => if is_ws c then skip_ws t else s
  | EmptyString => EmptyString
  end.

Definition unescape (c : ascii) : option ascii :=
  match c with
  | "034"%char => Some "034"%char
  | "\"%char => Some "\"%char
  | "/"%char => Some "/"%char
  | "b"%char => Some "008"%char
  | "f"%char => Some "012"%char
  | "n"%char => Some "010"%char
  | "r"%char => Some "013"%char
  | "t"%char => Some "009"%char
  | _ => None
  end.

(** The body of a string literal, after its opening quote. *)
Fixpoint parse_chars (s : string) : option (string * string) :=
  match s with
  | EmptyString => None
  | String "034"%char t => Some (EmptyString, t)
  | String "\"%char (String e t) =>
      match unescape e, parse_chars t with
      | Some c, Some (u, r) => Some (String c u, r)
      | _, _ => None
      end
  | String c t =>
      if code c <? 32 then None
      else match parse_chars t with
           | Some (u, r) => Some (String c u, r)
           | None => None
           end
  end.

Definition pow10 (e : Z) : Q :=
  if (0 <=? e)%Z then inject_Z (10 ^ e) else Qmake 1 (Z.to_pos (10 ^ (- e))).

(** A number literal: [-? int frac? exp?]; an integer when it has neither
    fraction nor exponent. *)
Definition parse_number (s : string) : option (json * string) :=
  let '(neg, s1) := match s with String "-"%char t => (true, t) | _ => (false, s) end in
  let '(ip, s2) :=
    match s1 with
    | String "0"%char t => (String "0"%char EmptyString, t)
    | _ => span_digits s1
    end in
  if is_empty ip then None else
  let '(fp, s3) :=
    match s2 with
    | String "."%char t =>
        let '(d, r) := span_digits t in
        if is_empty d then (EmptyString, s2) else (d, r)
    | _ => (EmptyString, s2)
    end in
  let '(ex, s4) :=
    match s3 with
    | String c t =>
        if (code c =? 101) || (code c =? 69) then
          let '(sg, t') := match t with
                           | String "-"%char u => ((-1)%Z, u)
                           | String "+"%char u => (1%Z, u)
                           | _ => (1%Z, t)
                           end in
          let '(d, r) := span_digits t' in
          if is_empty d then (None, s3) else (Some (sg * int_of_digits d)%Z, r)
        else (None, s3)
    | EmptyString => (None, s3)
    end in
  let sign := if neg then (-1)%Z else 1%Z in
  match is_empty fp, ex with
  | true, None => Some (JInt (sign * int_of_digits ip), s4)
  | _, _ =>
      let mant := Qmake (sign * int_of_digits (ip +:+ fp))
                        (Z.to_pos (10 ^ Z.of_nat (String.length fp))) in
      Some (JFloat (Qred (mant * pow10 (default 0%Z ex))), s4)
  end.

Fixpoint parse_value (fuel : nat) (s : string) : option (json * string) :=
  match fuel with
  | 0 => None
  | S f =>
      let s := skip_ws s in
      if startswith s "null" then Some (JNull, drop 4 s)
      else if startswith s "true" then Some (JBool true, drop 4 s)
      else if startswith s "false" then Some (JBool false, drop 5 s)
      else match s with
           | String "034"%char t =>
               match parse_chars t with
               | Some (u, r) => Some (JStr u, r)
               | None => None
               end
           | String "["%char t =>
               match skip_ws t with
               | String "]"%char r => Some (JArr [], r)
               | t' => parse_elems f t' []
               end
           | String "{"%char t =>
               match skip_ws t with
               | String "}"%char r => Some (JObj ∅, r)
               | t' => parse_members f t' ∅
               end
           | _ => parse_number s
           end
  end
with parse_elems (fuel : nat) (s : string) (acc : list json)
  : option (json * string) :=
  match fuel with
  | 0 => None
  | S f =>
      match parse_value f s with
      | Some (v, r) =>
          match skip_ws r with
          | String ","%char r' => parse_elems f r' (acc ++ [v])
          | String "]"%char r' => Some (JArr (acc ++ [v]), r')
          | _ => None
          end
      | None => None
      end
  end
with parse_members (fuel : nat) (s : string) (acc : gmap string json)
  : option (json * string) :=
  match fuel with
  | 0 => None
  | S f =>
      match skip_ws s with
      | String "034"%char t =>
          match parse_chars t with
          | Some (k, r) =>
              match skip_ws r with
              | String ":"%char r1 =>
                  match parse_value f r1 with
                  | Some (v, r2) =>
                      match skip_ws r2 with
                      | String ","%char r3 => parse_members f r3 (<[k := v]> acc)
                      | String "}"%char r3 => Some (JObj (<[k := v]> acc), r3)
                      | _ => None
                      end
                  | None => None
                  end
              | _ => None
              end
          | None => None
          end
      | _ => None
      end
  end.

Definition loads (s : string) : option json :=
  match parse_value (2 * String.length s + 2) s with
  | Some (v, r) => if is_empty (skip_ws r) then Some v else None
  | None => None
  end.

(** JSON text written with apostrophes where the text has double quotes. *)
Definition text : string -> string :=
  smap (fun c => if Ascii.eqb c "'"%char then "034"%char else c).

End Json.

Import PyStr Json.
Import Re.Notations.

(** ** Programs that may call the chat-completion backend *)

(** What a request to the backend depends on: its purpose (each has its fixed
    prompt template, temperature and token budget) and the texts that are
    interpolated into the prompt. *)
Inductive request : Type :=
| AlgorithmPrompt (input_text : string)
| ParametersPrompt (algo input_text : string)
| OrderPrompt (text : string)
| AutocompletePrompt (text : string).

(** The outcome of [azure_client.chat.completions.create(...)] followed by
    [response.choices[0].message.content]: the content, or the exception
    raised on the way (transport, authentication, quota, missing content). *)
Inductive reply : Type :=
| Content (text : string)
| Raised (err : string).

Inductive prog (A : Type) : Type :=
| Ret (a : A)                             (* return normally *)
| Raise (err : string)                    (* an exception leaves the function *)
| Call (q : request) (k : reply -> prog A).  (* one backend call *)

Arguments Ret {A} a.
Arguments Raise {A} err.
Arguments Call {A} q k.

Fixpoint bind {A B : Type} (p : prog A) (f : A -> prog B) : prog B :=
  match p with
  | Ret a => f a
  | Raise e => Raise e
  | Call q k => Call q (fun r => bind (k r) f)
  end.

Notation "x <- p ;; q" := (bind p (fun x => q))
  (at level 100, p at next level, right associativity, only parsing).

Inductive outcome (A : Type) : Type :=
| Done (a : A)
| Failed (err : string).

Arguments Done {A} a.
Arguments Failed {A} err.

(** Running a program against a backend that answers each request. *)
Fixpoint run {A : Type} (llm : request -> reply) (p : prog A) : outcome A :=
  match p with
  | Ret a => Done a
  | Raise e => Failed e
  | Call q k => run llm (k (llm q))
  end.

(** The requests a run issues, in order. *)
Fixpoint calls {A : Type} (llm : request -> reply) (p : prog A) : list request :=
  match p with
  | Ret _ | Raise _ => []
  | Call q k => q :: calls llm (k (llm q))
  end.

(** ** Data model *)

Inductive TimeInForce : Type := DAY | GTD | GTC | FOK.

Inductive ContactMethod : Type := PHONE | EMAIL | MEETING | PORTAL.

Record SecurityInfo : Type := {
  symbol : string;
  market : string;
  currency : string;
  name : string;
  sec_price : Q
}.

Record OrderFormModel : Type := {
  security : option SecurityInfo;
  contact_method : ContactMethod;
  quantity : option Z;
  price : option Q;
  time_in_force : TimeInForce;
  gtd_date : option string;
  trader_text : string
}.

(** [TimeInForce(v)] and [ContactMethod(v)]: the member whose value is [v],
    [None] for the [ValueError] (or [TypeError]) of any other value. *)
Definition TimeInForce_of (v : json) : option TimeInForce :=
  match v with
  | JStr s =>
      if String.eqb s "DAY" then Some DAY
      else if String.eqb s "GTD" then Some GTD
      else if String.eqb s "GTC" then Some GTC
      else if String.eqb s "FOK" then Some FOK
      else None
  | _ => None
  end.

Definition ContactMethod_of (v : json) : option ContactMethod :=
  match v with
  | JStr s =>
      if String.eqb s "phone" then Some PHONE
      else if String.eqb s "email" then Some EMAIL
      else if String.eqb s "meeting" then Some MEETING
      else if String.eqb s "portal" then Some PORTAL
      else None
  | _ => None
  end.

(** The mock securities database, in insertion order (the order in which a
    Python [dict] is iterated). *)
Definition SECURITIES_DB : list (string * SecurityInfo) :=
  [ ("AAPL", {| symbol := "AAPL"; market := "NASDAQ"; currency := "USD";
                name := "Apple Inc."; sec_price := 178.50 |});
    ("GOOGL", {| symbol := "GOOGL"; market := "NASDAQ"; currency := "USD";
                 name := "Alphabet Inc."; sec_price := 140.25 |});
    ("MSFT", {| symbol := "MSFT"; market := "NASDAQ"; currency := "USD";
                name := "Microsoft Corporation"; sec_price := 378.91 |});
    ("TSLA", {| symbol := "TSLA"; market := "NASDAQ"; currency := "USD";
                name := "Tesla Inc."; sec_price := 242.84 |});
    ("NOVN", {| symbol := "NOVN"; market := "SIX"; currency := "CHF";
                name := "Novartis AG"; sec_price := 95.20 |});
    ("NESN", {| symbol := "NESN"; market := "SIX"; currency := "CHF";
                name := "Nestlé S.A."; sec_price := 87.45 |}) ].


Record TraderTextState : Type := {
  input_text : string;
  normalized_text : string;
  detected_algo : option string;
  parameters : json;
  structured_output : string;
  confidence : Q;
  reasoning : string
}.

Definition with_normalized_text (st : TraderTextState) (v : string) :=
  {| input_text := input_text st; normalized_text := v;
     detected_algo := detected_algo st; parameters := parameters st;
     structured_output := structured_output st; confidence := confidence st;
     reasoning := reasoning st |}.

Definition with_detected_algo (st : TraderTextState) (v : option string) :=
  {| input_text := input_text st; normalized_text := normalized_text st;
     detected_algo := v; parameters := parameters st;
     structured_output := structured_output st; confidence := confidence st;
     reasoning := reasoning st |}.

Definition with_parameters (st : TraderTextState) (v : json) :=
  {| input_text := input_text st; normalized_text := normalized_text st;
     detected_algo := detected_algo st; parameters := v;
     structured_output := structured_output st; confidence := confidence st;
     reasoning := reasoning st |}.

Definition with_structured_output (st : TraderTextState) (v : string) :=
  {| input_text := input_text st; normalized_text := normalized_text st;
     detected_algo := detected_algo st; parameters := parameters st;
     structured_output := v; confidence := confidence st;
     reasoning := reasoning st |}.

Definition with_confidence (st : TraderTextState) (v : Q) :=
  {| input_text := input_text st; normalized_text := normalized_text st;
     detected_algo := detected_algo st; parameters := parameters st;
     structured_output := structured_output st; confidence := v;
     reasoning := reasoning st |}.

Definition with_reasoning (st : TraderTextState) (v : string) :=
  {| input_text := input_text st; normalized_text := normalized_text st;
     detected_algo := detected_algo st; parameters := parameters st;
     structured_output := structured_output st; confidence := confidence st;
     reasoning := v |}.

(** The state the endpoint builds before invoking the workflow. *)
Definition initial_state (text : string) : TraderTextState :=
  {| input_text := text; normalized_text := ""; detected_algo := None;
     parameters := JObj ∅; structured_output := ""; confidence := 0.0;
     reasoning := "" |}.

(** [not algo] for an [Optional[str]]: [None] and the empty string. *)
Definition no_algo (algo : option string) : bool :=
  match algo with
  | None => true
  | Some a => is_empty a
  end.

(** ** The patterns of the source *)

Definition digits : Re.regex := Re.plus isdigit.
Definition spaces : Re.regex := Re.star isspace.
Definition spaces1 : Re.regex := Re.plus isspace.

(** [ALGORITHM:\s*(\w+)] and [REASON:\s*(.+)], both IGNORECASE, the second
    DOTALL. *)
Definition ALGORITHM_RE : Re.regex :=
  Re.Chars "ALGORITHM:" +> spaces +> Re.Group 1 (Re.plus isword).
Definition REASON_RE : Re.regex :=
  Re.Chars "REASON:" +> spaces +> Re.Group 1 (Re.plus Re.any_char).

(** [(\d{1,2}):(\d{2})] *)
Definition TIME_RE : Re.regex :=
  Re.Group 1 (Re.Class isdigit 1 (Some 2)) +> Re.Chars ":"
  +> Re.Group 2 (Re.Class isdigit 2 (Some 2)).

(** [(\d+)\s*(hour|hr|minute|min)] *)
Definition DURATION_RE : Re.regex :=
  Re.Group 1 digits +> spaces
  +> Re.Group 2 (Re.Alt (Re.Chars "hour") (Re.Alt (Re.Chars "hr")
                 (Re.Alt (Re.Chars "minute") (Re.Chars "min")))).

(** [(\d+)\s*%] *)
Definition PERCENT_RE : Re.regex :=
  Re.Group 1 digits +> spaces +> Re.Chars "%".

(** [\{.*\}] with DOTALL *)
Definition JSON_RE : Re.regex :=
  Re.Chars "{" +> Re.star Re.any_char +> Re.Chars "}".

(** [(\d+)\s*shares?], [(\d+)\s*units?], [buy\s+(\d+)], [sell\s+(\d+)],
    [(\d+)\s+of] *)
Definition qty_patterns : list Re.regex :=
  [ Re.Group 1 digits +> spaces +> Re.Chars "share" +> Re.opt (Re.is_char "s");
    Re.Group 1 digits +> spaces +> Re.Chars "unit" +> Re.opt (Re.is_char "s");
    Re.Chars "buy" +> spaces1 +> Re.Group 1 digits;
    Re.Chars "sell" +> spaces1 +> Re.Group 1 digits;
    Re.Group 1 digits +> spaces1 +> Re.Chars "of" ].

(** [\d+\.?\d*] *)
Definition DECIMAL_RE : Re.regex :=
  digits +> Re.opt (Re.is_char ".") +> Re.star isdigit.

(** [at\s+\$?(D)], [price\s+\$?(D)], [limit\s+\$?(D)], where [D] is the
    decimal pattern above *)
Definition price_patterns : list Re.regex :=
  [ Re.Chars "at" +> spaces1 +> Re.opt (Re.is_char "$") +> Re.Group 1 DECIMAL_RE;
    Re.Chars "price" +> spaces1 +> Re.opt (Re.is_char "$") +> Re.Group 1 DECIMAL_RE;
    Re.Chars "limit" +> spaces1 +> Re.opt (Re.is_char "$") +> Re.Group 1 DECIMAL_RE ].

(** The first pattern of the list that matches somewhere in the text, with
    its match ([for pattern in ...: match = re.search(...); if match: break]). *)
Fixpoint first_match (ps : list Re.regex) (s : string) : option Re.match_object :=
  match ps with
  | [] => None
  | p :: ps' =>
      match Re.search false p s with
      | Some m => Some m
      | None => first_match ps' s
      end
  end.

(** ** The trader-text workflow *)

Definition EMPTY : json := JObj ∅.

(** [str(v)] as an f-string renders it, for the values whose rendering does
    not depend on float formatting; [repr] covers floats and containers. *)
Definition format (repr : json -> string) (v : json) : string :=
  match v with
  | JStr s => s
  | JBool true => "True"
  | JBool false => "False"
  | JNull => "None"
  | _ => repr v
  end.

(** [params.get(k, dflt)]; on a value that is not a dictionary the attribute
    lookup raises. *)
Definition params_get (params : json) (k : string) (dflt : json) : prog json :=
  match params with
  | JObj m => Ret (dict_get m k dflt)
  | _ => Raise "AttributeError"
  end.

Section Workflow.

(** Whether the Azure OpenAI client could be constructed at start-up. *)
Variable LLM_AVAILABLE : bool.

(** [json.loads]: the decoded value, [None] when it raises. *)
Variable json_loads : string -> option json.

(** [str()] of a float, an integer, a list or a dictionary. *)
Variable py_repr : json -> string.

(** Step 1: normalize and clean the input text. *)
Definition normalize_input (state : TraderTextState) : TraderTextState :=
  let text := lower (strip (input_text state)) in
  with_normalized_text state text.

(** Step 2: detect the algorithm type. *)
Definition detect_algorithm (state : TraderTextState) : prog TraderTextState :=
  let text := normalized_text state in
  if negb LLM_AVAILABLE then
    let algo :=
      if contains "vwap" text then Some "vwap"
      else if contains "twap" text then Some "twap"
      else if contains "pov" text || contains "participation" text then Some "pov"
      else if contains "aggressive" text || contains "urgent" text
              || contains "shortfall" text
      then Some "implementation_shortfall"
      else None in
    Ret (with_reasoning (with_detected_algo state algo)
                        "Rule-based detection (LLM not available)")
  else
    Call (AlgorithmPrompt (input_text state)) (fun r =>
      match r with
      | Content content =>
          let result := strip content in
          let algo_match := Re.search true ALGORITHM_RE result in
          let reason_match := Re.search true REASON_RE result in
          let state1 :=
            match algo_match with
            | Some m =>
                let algo := lower (Re.group m 1) in
                with_detected_algo state
                  (if String.eqb algo "none" then None else Some algo)
            | None => with_detected_algo state None
            end in
          Ret (with_reasoning state1
                 match reason_match with
                 | Some m => strip (Re.group m 1)
                 | None => "LLM detection"
                 end)
      | Raised e =>
          Ret (with_reasoning (with_detected_algo state None) ("Error: " +:+ e))
      end).

(** Step 3: extract the algorithm-specific parameters. *)
Definition extract_parameters (state : TraderTextState) : prog TraderTextState :=
  let text := normalized_text state in
  if no_algo (detected_algo state) then Ret (with_parameters state EMPTY)
  else
    let algo := default "" (detected_algo state) in
    if negb LLM_AVAILABLE then
      let params : gmap string json :=
        if String.eqb algo "vwap" then
          let end_time :=
            match Re.search false TIME_RE text with
            | Some m => Re.group m 1 +:+ ":" +:+ Re.group m 2
            | None => "16:00"
            end in
          <["start_time" := JStr "09:30"]>
            (<["include_auctions" := JBool (contains "auction" text)]>
               (<["end_time" := JStr end_time]> ∅))
        else if String.eqb algo "twap" then
          match Re.search false DURATION_RE text with
          | Some m => <["duration" := JStr (Re.group m 1 +:+ " " +:+ Re.group m 2)]> ∅
          | None => <["duration" := JStr "full day"]> ∅
          end
        else if String.eqb algo "pov" then
          match Re.search false PERCENT_RE text with
          | Some m => <["participation_rate" := JStr (Re.group m 1 +:+ "%")]> ∅
          | None => <["participation_rate" := JStr "10%"]> ∅
          end
        else if String.eqb algo "implementation_shortfall" then
          <["urgency" := JStr (if existsb (fun w => contains w text)
                                            ["aggressive"; "urgent"]
                               then "high" else "medium")]> ∅
        else ∅ in
      Ret (with_parameters state (JObj params))
    else
      Call (ParametersPrompt algo (input_text state)) (fun r =>
        match r with
        | Content content =>
            let result := strip content in
            match Re.search false JSON_RE result with
            | Some m =>
                match json_loads (Re.group m 0) with
                | Some params => Ret (with_parameters state params)
                | None => Ret (with_parameters state EMPTY)
                end
            | None => Ret (with_parameters state EMPTY)
            end
        | Raised e => Ret (with_parameters state EMPTY)
        end).

Definition render (state : TraderTextState) (out : string) (conf : Q)
  : TraderTextState :=
  with_confidence (with_structured_output state out) conf.

(** Step 4: generate the human-readable structured output. *)
Definition generate_structured_output (state : TraderTextState)
  : prog TraderTextState :=
  let params := parameters state in
  if no_algo (detected_algo state) then
    Ret (render state ("Custom execution: " +:+ input_text state) 0.5)
  else
    let algo := default "" (detected_algo state) in
    if String.eqb algo "vwap" then
      end_time <- params_get params "end_time" (JStr "16:00") ;;
      include_auctions <- params_get params "include_auctions" JNull ;;
      let auctions := if truthy include_auctions then " on all auctions" else "" in
      Ret (render state ("VWAP Market Close [" +:+ format py_repr end_time
                         +:+ "]" +:+ auctions) 0.95)
    else if String.eqb algo "twap" then
      duration <- params_get params "duration" (JStr "full day") ;;
      Ret (render state ("TWAP execution over " +:+ format py_repr duration) 0.92)
    else if String.eqb algo "pov" then
      rate <- params_get params "participation_rate" (JStr "10%") ;;
      Ret (render state ("POV " +:+ format py_repr rate
                         +:+ " participation rate") 0.90)
    else if String.eqb algo "implementation_shortfall" then
      urgency <- params_get params "urgency" (JStr "medium") ;;
      match urgency with
      | JStr u =>
          Ret (render state ("Implementation Shortfall - " +:+ capitalize u
                             +:+ " urgency profile") 0.88)
      | _ => Raise "AttributeError"
      end
    else
      Ret (render state ("Custom execution: " +:+ input_text state) 0.7).

(** The compiled graph: normalize, detect_algo, extract_params,
    generate_output, in this order. *)
Definition trader_text_graph (state : TraderTextState) : prog TraderTextState :=
  s1 <- Ret (normalize_input state) ;;
  s2 <- detect_algorithm s1 ;;
  s3 <- extract_parameters s2 ;;
  generate_structured_output s3.

End Workflow.

(** ** Natural-language order parsing *)

(** Rule-based parsing, used when the backend is unavailable or fails. *)
Definition parse_natural_language_order_fallback (text : string) : OrderFormModel :=
  let text_lower := lower text in
  let security :=
    option_map snd
      (List.find (fun kv : string * SecurityInfo =>
               contains (lower (fst kv)) text_lower
               || contains (lower (name (snd kv))) text_lower)
            SECURITIES_DB) in
  let quantity :=
    option_map (fun m => int_of_digits (Re.group m 1))
               (first_match qty_patterns text_lower) in
  let price :=
    option_map (fun m => float_of_decimal (Re.group m 1))
               (first_match price_patterns text_lower) in
  let time_in_force :=
    if contains "gtc" text_lower || contains "good til cancel" text_lower then GTC
    else if contains "gtd" text_lower || contains "good til date" text_lower then GTD
    else if contains "fok" text_lower || contains "fill or kill" text_lower then FOK
    else DAY in
  let contact_method :=
    if contains "email" text_lower then EMAIL
    else if contains "meeting" text_lower || contains "in person" text_lower then MEETING
    else if contains "portal" text_lower || contains "online" text_lower then PORTAL
    else PHONE in
  {| security := security; contact_method := contact_method;
     quantity := quantity; price := price; time_in_force := time_in_force;
     gtd_date := None; trader_text := "" |}.

Section OrderParsing.

Variable LLM_AVAILABLE : bool.
Variable json_loads : string -> option json.

(** Pydantic's coercion of a value that is neither [None] nor a number
    into an [int] and a [float] field (numeric strings, booleans, floats
    for an [int]); [None] when validation fails. *)
Variable coerce_int : json -> option Z.
Variable coerce_float : json -> option Q.





End OrderParsing.

(** ** Autocomplete *)

Definition suggestions_map : list (string * list string) :=
  [ ("vwap", ["VWAP Market Close"; "VWAP Market Close 16:00"; "VWAP with auctions"]);
    ("twap", ["TWAP over 2 hours"; "TWAP over trading day"; "TWAP 1 hour execution"]);
    ("pov", ["POV 10% participation"; "POV 15% participation rate"; "POV 5% target"]);
    ("aggr", ["aggressive execution required"; "aggressive - minimize slippage"]);
    ("urgent", ["urgent - minimize market impact"; "urgent execution needed"]);
    ("client", ["Client requests immediate execution";
                "Client confirmed price tolerance"]);
    ("priority", ["Priority order - high net worth client";
                  "Priority - institutional client"]);
    ("rebal", ["Part of portfolio rebalancing strategy";
               "Rebalancing trade - no rush"]) ].

Fixpoint suggestions_for (text_lower : string) (table : list (string * list string))
  : list string :=
  match table with
  | [] => []
  | (key, suggestions) :: table' =>
      if startswith text_lower key
      then List.filter (fun s => startswith (lower s) text_lower) suggestions
      else suggestions_for text_lower table'
  end.

(** Fallback autocomplete suggestions. *)
Definition get_autocomplete_suggestions_fallback (text : string) : list string :=
  let text_lower := strip (lower text) in
  suggestions_for text_lower suggestions_map.

Section Autocomplete.

Variable LLM_AVAILABLE : bool.

(** Autocomplete suggestions from the backend. *)
Definition get_autocomplete_suggestions_with_llm (text : string)
  : prog (list string) :=
  if negb LLM_AVAILABLE || (String.length text <? 3) then
    Ret (get_autocomplete_suggestions_fallback text)
  else
    Call (AutocompletePrompt text) (fun r =>
      match r with
      | Content content =>
          let suggestion := strip content in
          Ret (if is_empty suggestion then [] else [suggestion])
      | Raised e => Ret (get_autocomplete_suggestions_fallback text)
      end).

End Autocomplete.


(** ** Reference descriptions used in the statements *)

(** [sub] occurs in [s] as a contiguous substring. *)
Definition occurs_in (sub s : string) : Prop :=
  exists pre post : string, s = pre +:+ sub +:+ post.


Fixpoint take_while (p : ascii -> bool) (s : string) : string :=
  match s with
  | String c t => if p c then String c (take_while p t) else EmptyString
  | EmptyString => EmptyString
  end.


(** The token of the first [ALGORITHM:] line of a reply: at the leftmost
    place where the text reads [algorithm:] in any letter case, followed by
    optional white space and at least one word character, the word that
    starts there. *)
Fixpoint algorithm_token (s : string) : option string :=
  let word := take_while isword (lstrip (drop 10 s)) in
  if startswith (lower s) "algorithm:" && negb (is_empty word) then Some word
  else match s with
       | String _ t => algorithm_token t
       | EmptyString => None
       end.

(** The text up to and including the last occurrence of [c]. *)
Fixpoint upto_last (c : ascii) (s : string) : option string :=
  match s with
  | EmptyString => None
  | String a t =>
      match upto_last c t with
      | Some u => Some (String a u)
      | None => if Ascii.eqb a c then Some (String a EmptyString) else None
      end
  end.

(** The span from the first opening brace to the last closing brace that
    follows it. *)
Fixpoint first_to_last_brace (s : string) : option string :=
  match s with
  | EmptyString => None
  | String a t =>
      if Ascii.eqb a "{" then option_map (String a) (upto_last "}" t)
      else first_to_last_brace t
  end.

(** The text up to and including the closing brace that balances [depth]
    pending opening braces. *)
Fixpoint balanced_end (depth : nat) (s : string) : option string :=
  match s with
  | EmptyString => None
  | String a t =>
      if Ascii.eqb a "{" then option_map (String a) (balanced_end (S depth) t)
      else if Ascii.eqb a "}" then
        match depth with
        | 0 => Some (String a EmptyString)
        | S d => option_map (String a) (balanced_end d t)
        end
      else option_map (String a) (balanced_end depth t)
  end.

(** The first balanced brace span, as the specification words it: from the
    first opening brace to the closing brace that matches it. *)
Fixpoint first_balanced_span (s : string) : option string :=
  match s with
  | EmptyString => None
  | String a t =>
      if Ascii.eqb a "{" then option_map (String a) (balanced_end 0 t)
      else first_balanced_span t
  end.

(** A text that does not begin with white space. *)
Definition clean_head (s : string) : Prop :=
  match s with
  | String c _ => isspace c = false
  | EmptyString => True
  end.

(** A rational that is a binary64 floating-point number: [float()] of a
    literal with such a value involves no rounding. *)
Definition binary64 (q : Q) : Prop :=
  exists m e : Z,
    (Z.abs m < 2 ^ 53)%Z /\ (-1074 <= e <= 971)%Z /\ (q == inject_Z m * 2 ^ e)%Q.

(** The value of a dictionary-valued [parameters] at a key. *)
Definition parameter (st : TraderTextState) (k : string) : option json :=
  match parameters st with
  | JObj m => m !! k
  | _ => None
  end.

(** The normalizer as a function on strings. *)
Definition normalize (x : string) : string :=
  normalized_text (normalize_input (initial_state x)).



(** ** Backends and library instances for the examples *)

(** A backend whose every call raises. *)
Definition backend_down : request -> reply :=
  fun _ => Raised "Connection error.".

(** A backend that answers every request with the same content. *)
Definition replying (content : string) : request -> reply :=
  fun _ => Content content.

(** A rendering for the examples in which only strings are rendered. *)
Definition no_repr : json -> string := fun _ => "?".


(** The state after twap was detected for the text TWAP over 2 hours. *)
Definition twap_detected : TraderTextState :=
  with_detected_algo (normalize_input (initial_state "TWAP over 2 hours"))
                     (Some "twap").

(** ** The HTTP surface

    The endpoints around the workflow and the parsers, and what is needed to
    state their behaviour. *)

(** The value of an enumeration member. *)
Definition TimeInForce_value (t : TimeInForce) : string :=
  match t with
  | DAY => "DAY"
  | GTD => "GTD"
  | GTC => "GTC"
  | FOK => "FOK"
  end.

Definition ContactMethod_value (c : ContactMethod) : string :=
  match c with
  | PHONE => "phone"
  | EMAIL => "email"
  | MEETING => "meeting"
  | PORTAL => "portal"
  end.

Inductive AlgoType : Type := VWAP | TWAP | POV | IMPLEMENTATION_SHORTFALL.

Definition AlgoType_value (a : AlgoType) : string :=
  match a with
  | VWAP => "vwap"
  | TWAP => "twap"
  | POV => "pov"
  | IMPLEMENTATION_SHORTFALL => "implementation_shortfall"
  end.

(** [AlgoType(s)]: the member whose value is [s], [None] for the
    [ValueError] of any other string. *)
Definition AlgoType_of (s : string) : option AlgoType :=
  if String.eqb s "vwap" then Some VWAP
  else if String.eqb s "twap" then Some TWAP
  else if String.eqb s "pov" then Some POV
  else if String.eqb s "implementation_shortfall" then Some IMPLEMENTATION_SHORTFALL
  else None.

(** The response body of the trader-text endpoint. *)
Module Parsed.
Record TraderTextParsed : Type := {
  structured : string;
  algo : option AlgoType;
  parameters : gmap string json;
  confidence : Q;
  reasoning : string
}.
End Parsed.

(** What an endpoint answers: the body, or an [HTTPException] with its
    status code and detail.  [D] is [string] where the source spells the
    detail out and [unit] where the detail embeds the text of a library
    exception, which is not modelled. *)
Inductive response (D A : Type) : Type :=
| OK (body : A)
| HTTPException (status_code : nat) (detail : D).

Arguments OK {D A} body.
Arguments HTTPException {D A} status_code detail.

(** [try: p except Exception as e: h(e)]. *)
Fixpoint try_except {A : Type} (p : prog A) (h : string -> prog A) : prog A :=
  match p with
  | Ret a => Ret a
  | Raise e => h e
  | Call q k => Call q (fun r => try_except (k r) h)
  end.

Section Endpoints.

Variable LLM_AVAILABLE : bool.
Variable json_loads : string -> option json.
Variable py_repr : json -> string.
Variable coerce_int : json -> option Z.
Variable coerce_float : json -> option Q.


(** [POST /api/parse-trader-text]: run the workflow and project the final
    state into the response model, whose validation wants a dictionary of
    parameters and a confidence between 0 and 1. *)
Definition parse_trader_text_endpoint (text : string)
  : prog (response unit Parsed.TraderTextParsed) :=
  try_except
    (final_state <- trader_text_graph LLM_AVAILABLE json_loads py_repr
                                      (initial_state text) ;;
     algo <- (if no_algo (detected_algo final_state) then Ret None
              else match AlgoType_of (default "" (detected_algo final_state)) with
                   | Some a => Ret (Some a)
                   | None => Raise "ValueError"
                   end) ;;
     match parameters final_state with
     | JObj params =>
         if Qle_bool 0 (confidence final_state) && Qle_bool (confidence final_state) 1
         then Ret (OK {| Parsed.structured := structured_output final_state;
                         Parsed.algo := algo;
                         Parsed.parameters := params;
                         Parsed.confidence := confidence final_state;
                         Parsed.reasoning := reasoning final_state |})
         else Raise "ValidationError"
     | _ => Raise "ValidationError"
     end)
    (fun e => Ret (HTTPException 500 tt)).


End Endpoints.



(** ** Further descriptions used in the statements *)


(** The text holds no upper-case letter. *)
Fixpoint upper_free (s : string) : bool :=
  match s with
  | EmptyString => true
  | String c t => negb (isupper c) && upper_free t
  end.




(** A backend whose every call raises with the same message. *)
Definition failing (err : string) : request -> reply := fun _ => Raised err.

(** * Facts about the string primitives *)

Section StringFacts.

Ltac by_cases_on c := destruct c as [[] [] [] [] [] [] [] []]; reflexivity.

Lemma isspace_lower_char c : isspace (lower_char c) = isspace c.
Proof. by_cases_on c. Qed.

Lemma lower_char_idem c : lower_char (lower_char c) = lower_char c.
Proof. by_cases_on c. Qed.


Lemma sapp_nil_l (s : string) : "" +:+ s = s.
Proof. reflexivity. Qed.

Lemma sapp_cons c (s t : string) : String c s +:+ t = String c (s +:+ t).
Proof. reflexivity. Qed.

Lemma sapp_nil_r (s : string) : s +:+ "" = s.
Proof. induction s as [|c s IH]; [reflexivity|]. rewrite sapp_cons. now f_equal. Qed.

Lemma sapp_assoc (s t u : string) : (s +:+ t) +:+ u = s +:+ t +:+ u.
Proof. induction s as [|c s IH]; [reflexivity|]. rewrite !sapp_cons. now f_equal. Qed.

Lemma lower_idem s : lower (lower s) = lower s.
Proof.
  induction s as [|c s IH]; [reflexivity|].
  cbn. rewrite lower_char_idem. f_equal. exact IH.
Qed.

Lemma is_empty_lower s : is_empty (lower s) = is_empty s.
Proof. now destruct s. Qed.

Lemma lstrip_lower s : lstrip (lower s) = lower (lstrip s).
Proof.
  induction s as [|c s IH]; [reflexivity|].
  cbn. rewrite isspace_lower_char. destruct (isspace c); [exact IH | reflexivity].
Qed.

Lemma rstrip_lower s : rstrip (lower s) = lower (rstrip s).
Proof.
  induction s as [|c s IH]; [reflexivity|].
  cbn. rewrite isspace_lower_char. fold (lower s). rewrite IH, is_empty_lower.
  now destruct (isspace c && is_empty (rstrip s)).
Qed.

Lemma strip_lower s : strip (lower s) = lower (strip s).
Proof. unfold strip. now rewrite lstrip_lower, rstrip_lower. Qed.

Lemma lstrip_clean_head s : clean_head (lstrip s).
Proof.
  induction s as [|c s IH]; [exact I|].
  cbn. destruct (isspace c) eqn:E; [exact IH | exact E].
Qed.

Lemma lstrip_clean s : clean_head s -> lstrip s = s.
Proof.
  destruct s as [|c s]; [reflexivity|].
  intros H. cbn [clean_head lstrip] in *. now rewrite H.
Qed.

Lemma rstrip_clean_head s : clean_head s -> clean_head (rstrip s).
Proof.
  destruct s as [|c s]; [exact id|].
  intros H. cbn [clean_head rstrip] in *. now rewrite H.
Qed.

Lemma rstrip_idem s : rstrip (rstrip s) = rstrip s.
Proof.
  induction s as [|c s IH]; [reflexivity|].
  cbn. destruct (isspace c && is_empty (rstrip s)) eqn:E; [reflexivity|].
  cbn. now rewrite IH, E.
Qed.

Lemma strip_idem s : strip (strip s) = strip s.
Proof.
  unfold strip.
  rewrite (lstrip_clean (rstrip (lstrip s))).
  - apply rstrip_idem.
  - apply rstrip_clean_head, lstrip_clean_head.
Qed.

Lemma startswith_spec s p :
  startswith s p = true <-> exists post, s = p +:+ post.
Proof.
  revert s. induction p as [|a p IH]; intros s.
  - destruct s; cbn; split; eauto.
  - destruct s as [|b s]; cbn.
    + split; [discriminate | intros [post H]; discriminate].
    + rewrite andb_true_iff, IH. split.
      * intros [Hab [post ->]]. apply Ascii.eqb_eq in Hab as ->. now exists post.
      * intros [post H]. rewrite sapp_cons in H. injection H as -> ->.
        split; [apply Ascii.eqb_refl | now exists post].
Qed.

Lemma contains_spec sub s : contains sub s = true <-> occurs_in sub s.
Proof.
  split.
  - induction s as [|c s IH]; cbn [contains]; rewrite orb_true_iff.
    + intros [H | H]; [|discriminate].
      apply startswith_spec in H as [post H]. now exists "", post.
    + intros [H | H].
      * apply startswith_spec in H as [post H]. now exists "", post.
      * destruct (IH H) as (pre & post & ->). now exists (String c pre), post.
  - intros (pre & post & ->). induction pre as [|c pre IH].
    + assert (startswith (sub +:+ post) sub = true) as H
        by (apply startswith_spec; now exists post).
      rewrite sapp_nil_l. destruct (sub +:+ post); cbn [contains]; now rewrite H.
    + rewrite sapp_cons. cbn [contains]. rewrite IH. apply orb_true_r.
Qed.

Lemma contains_false sub s : contains sub s = false <-> ~ occurs_in sub s.
Proof.
  rewrite <- contains_spec. destruct (contains sub s); split; congruence.
Qed.

End StringFacts.

(** * Facts about the regular-expression matcher *)

Section RegexFacts.

Variable ic : bool.












End RegexFacts.

(** * The two patterns applied to a reply *)

Section ReplyPatterns.
















End ReplyPatterns.

(** * The trader-text workflow *)

Section ProgramFacts.

Context {A B : Type}.

Lemma run_bind (llm : request -> reply) (p : prog A) (f : A -> prog B) :
  run llm (bind p f)
  = match run llm p with
    | Done a => run llm (f a)
    | Failed e => Failed e
    end.
Proof.
  induction p as [a | e | q k IH]; [reflexivity | reflexivity |].
  cbn [bind run]. apply IH.
Qed.

Lemma calls_bind (llm : request -> reply) (p : prog A) (f : A -> prog B) :
  calls llm (bind p f)
  = calls llm p ++ match run llm p with
                   | Done a => calls llm (f a)
                   | Failed _ => []
                   end.
Proof.
  induction p as [a | e | q k IH]; [reflexivity | reflexivity |].
  cbn [bind run calls app]. f_equal. apply IH.
Qed.

End ProgramFacts.

Section WorkflowFacts.

Variable LLM_AVAILABLE : bool.
Variable json_loads : string -> option json.
Variable py_repr : json -> string.

Lemma extract_parameters_keeps_algo llm st st' :
  run llm (extract_parameters LLM_AVAILABLE json_loads st) = Done st' ->
  detected_algo st' = detected_algo st.
Proof.
  unfold extract_parameters.
  destruct (no_algo (detected_algo st)); [now intros [= <-]|].
  destruct (negb LLM_AVAILABLE); [now intros [= <-]|].
  cbn [run]. destruct (llm _) as [content | e]; [|now intros [= <-]].
  destruct (Re.search false JSON_RE (strip content)); [|now intros [= <-]].
  destruct (json_loads _); now intros [= <-].
Qed.

Lemma generate_structured_output_keeps llm st st' :
  run llm (generate_structured_output py_repr st) = Done st' ->
  detected_algo st' = detected_algo st /\ parameters st' = parameters st.
Proof.
  unfold generate_structured_output, params_get.
  destruct (no_algo (detected_algo st)); [now intros [= <-]|].
  repeat match goal with
         | |- context [if ?b then _ else _] => destruct b
         end;
    destruct (parameters st) eqn:Hp; cbn [bind run]; try discriminate;
    try (now intros [= <-]).
  destruct (dict_get _ _ _); cbn [run]; try discriminate; now intros [= <-].
Qed.

End WorkflowFacts.

(** * Properties of the workflow *)

Section Normalizer.

(** C10.  The text normalizer, strip then lower-case, is idempotent:
    normalizing a normalized string changes nothing.  It is a total function
    (a plain function on strings, with no failure case), and what it returns
    is the lower-cased stripped input. *)
Theorem normalize_idempotent (x : string) :
  normalize (normalize x) = normalize x /\ normalize x = lower (strip x).
Proof.
  assert (forall y, normalize y = lower (strip y)) as Hn by reflexivity.
  split; [|apply Hn].
  rewrite !Hn. now rewrite strip_lower, lower_idem, strip_idem.
Qed.

End Normalizer.

Section RuleBasedDetection.



End RuleBasedDetection.

Section TwapExample.

(** C1 (as the code has it).  For the input "TWAP over 2 hours" without the
    backend, the workflow detects twap, sets the duration parameter to the
    string "2 hour" (the number and the unit as captured by the duration
    pattern, whose units are hour, hr, minute and min) and renders
    "TWAP execution over 2 hour"; no backend call is made. *)
Theorem twap_over_2_hours_rule_based
    (json_loads : string -> option json) (py_repr : json -> string) :
  exists st : TraderTextState,
    trader_text_graph false json_loads py_repr (initial_state "TWAP over 2 hours")
    = Ret st
    /\ detected_algo st = Some "twap"
    /\ parameter st "duration" = Some (JStr "2 hour")
    /\ structured_output st = "TWAP execution over 2 hour".
Proof.
  eexists. split; [vm_compute; reflexivity|].
  repeat split; vm_compute; reflexivity.
Qed.

(** C1 as stated fails: the duration is not "2 hours" and the rendering is
    not "TWAP execution over 2 hours". *)
Lemma twap_over_2_hours_not_plural :
  ~ (exists st : TraderTextState,
        run backend_down
            (trader_text_graph false Json.loads no_repr
                               (initial_state "TWAP over 2 hours")) = Done st
        /\ detected_algo st = Some "twap"
        /\ parameter st "duration" = Some (JStr "2 hours")
        /\ structured_output st = "TWAP execution over 2 hours").
Proof.
  intros (st & Hrun & _ & _ & Hout).
  vm_compute in Hrun. injection Hrun as <-.
  vm_compute in Hout. discriminate Hout.
Qed.

End TwapExample.

Section ModelBackedDetection.



End ModelBackedDetection.

Section ModelBackedExtraction.

Variable json_loads : string -> option json.



End ModelBackedExtraction.




Section EmptyParameters.

Variable LLM_AVAILABLE : bool.
Variable json_loads : string -> option json.
Variable py_repr : json -> string.

(** C9.  Whenever the workflow completes with no algorithm detected, the
    parameters are empty; in that case the parameter-extraction stage is a
    plain return, with no backend call, and the workflow does complete, with
    the custom rendering and confidence 0.5. *)
Theorem no_algorithm_forces_empty_parameters
    (llm : request -> reply) (st0 : TraderTextState) :
  (forall st' : TraderTextState,
      run llm (trader_text_graph LLM_AVAILABLE json_loads py_repr st0) = Done st' ->
      detected_algo st' = None -> parameters st' = EMPTY)
  /\ (forall st : TraderTextState,
         detected_algo st = None ->
         extract_parameters LLM_AVAILABLE json_loads st
         = Ret (with_parameters st EMPTY)
         /\ calls llm (extract_parameters LLM_AVAILABLE json_loads st) = [])
  /\ (forall st2 : TraderTextState,
         run llm (detect_algorithm LLM_AVAILABLE (normalize_input st0)) = Done st2 ->
         detected_algo st2 = None ->
         run llm (trader_text_graph LLM_AVAILABLE json_loads py_repr st0)
         = Done (render (with_parameters st2 EMPTY)
                        ("Custom execution: " +:+ input_text st2) 0.5)).
Proof.
  assert (forall st, detected_algo st = None ->
                     extract_parameters LLM_AVAILABLE json_loads st
                     = Ret (with_parameters st EMPTY)) as Hextract.
  { intros st Hnone. unfold extract_parameters. now rewrite Hnone. }
  split; [|split; [intros st Hnone; now rewrite Hextract|]].
  - intros st' Hrun Hnone. unfold trader_text_graph in Hrun.
    cbn [bind] in Hrun. rewrite run_bind in Hrun.
    destruct (run llm (detect_algorithm LLM_AVAILABLE (normalize_input st0)))
      as [st2 | e]; [|discriminate Hrun].
    rewrite run_bind in Hrun.
    destruct (run llm (extract_parameters LLM_AVAILABLE json_loads st2))
      as [st3 | e] eqn:Hst3; [|discriminate Hrun].
    destruct (generate_structured_output_keeps py_repr llm st3 st' Hrun)
      as [Halgo Hparams].
    pose proof (extract_parameters_keeps_algo LLM_AVAILABLE json_loads llm st2 st3 Hst3)
      as Halgo2.
    rewrite Hextract in Hst3 by congruence.
    injection Hst3 as <-. now rewrite Hparams.
  - intros st2 Hrun Hnone. unfold trader_text_graph.
    cbn [bind]. rewrite run_bind, Hrun, run_bind, Hextract by exact Hnone.
    cbn [run]. unfold generate_structured_output.
    cbn [with_parameters detected_algo]. now rewrite Hnone.
Qed.

End EmptyParameters.

Lemma no_algorithm_forces_empty_parameters_witness :
  exists st' : TraderTextState,
    run backend_down
        (trader_text_graph false Json.loads no_repr
                           (initial_state "Work the order carefully")) = Done st'
    /\ detected_algo st' = None
    /\ parameters st' = EMPTY.
Proof.
  eexists. split; [vm_compute; reflexivity|]. split; [reflexivity|].
  apply (proj1 (no_algorithm_forces_empty_parameters
                  false Json.loads no_repr backend_down
                  (initial_state "Work the order carefully")));
    [vm_compute; reflexivity | reflexivity].
Defined.

(** * Autocomplete *)

Section AutocompleteFacts.




End AutocompleteFacts.

(** * Order parsing *)

Section OrderFacts.

Variable json_loads : string -> option json.
Variable coerce_int : json -> option Z.
Variable coerce_float : json -> option Q.


End OrderFacts.



(** C7.  For the text "Buy 100 shares of AAPL at $180.50 GTC" the rule-based
    extractor returns the security AAPL, quantity 100, price 180.50 (a
    binary64 number, so the conversion of the literal is exact), time in
    force GTC and contact method phone. *)
Theorem buy_100_shares_of_aapl :
  let order :=
    parse_natural_language_order_fallback "Buy 100 shares of AAPL at $180.50 GTC" in
  option_map symbol (security order) = Some "AAPL"
  /\ quantity order = Some 100%Z
  /\ (exists q : Q, price order = Some q /\ (q == 180.50)%Q /\ binary64 q)
  /\ time_in_force order = GTC
  /\ contact_method order = PHONE.
Proof.
  split; [vm_compute; reflexivity|].
  split; [vm_compute; reflexivity|].
  split; [|split; vm_compute; reflexivity].
  exists (361 # 2)%Q. split; [vm_compute; reflexivity|].
  split; [vm_compute; reflexivity|].
  exists 361%Z, (-1)%Z. repeat split; vm_compute; congruence.
Qed.

(** * The examples of the specification, and the patterns on sample texts *)

Section Examples.

Variable json_loads : string -> option json.
Variable py_repr : json -> string.

Example vwap_market_close :
  exists st : TraderTextState,
    trader_text_graph false json_loads py_repr (initial_state "VWAP Market Close")
    = Ret st
    /\ structured_output st = "VWAP Market Close [16:00]"
    /\ confidence st = 0.95%Q
    /\ parameter st "include_auctions" = Some (JBool false).
Proof. eexists. split; [vm_compute; reflexivity|]. repeat split. Qed.

Example duration_pattern_sample :
  option_map (fun m => (Re.group m 0, Re.group m 1, Re.group m 2))
             (Re.search false DURATION_RE "twap over 90   minutes, then 1 hr")
  = Some ("90   minute", "90", "minute").
Proof. vm_compute. reflexivity. Qed.

Example time_pattern_sample :
  option_map (fun m => (Re.m_start m, Re.group m 1, Re.group m 2))
             (Re.search false TIME_RE "close 116:305")
  = Some (7, "16", "30").
Proof. vm_compute. reflexivity. Qed.

Example algorithm_token_sample :
  algorithm_token "Sure. Algorithm:   POV
Reason: ten percent of volume" = Some "POV".
Proof. vm_compute. reflexivity. Qed.

Example first_to_last_brace_sample :
  first_to_last_brace "x {a {b} c} d {e} f" = Some "{a {b} c} d {e}"
  /\ first_balanced_span "x {a {b} c} d {e} f" = Some "{a {b} c}".
Proof. split; reflexivity. Qed.

End Examples.

(** * Further properties of the code *)

(** ** The normalizer and letter case *)

Section CaseFacts.



Lemma isupper_lower_char c : isupper (lower_char c) = false.
Proof. destruct c as [[] [] [] [] [] [] [] []]; reflexivity. Qed.







Lemma upper_free_lower s : upper_free (lower s) = true.
Proof.
  induction s as [|c s IH]; [reflexivity|].
  cbn. rewrite isupper_lower_char. exact IH.
Qed.


Lemma length_lower s : String.length (lower s) = String.length s.
Proof. induction s as [|c s IH]; [reflexivity|]. cbn. now f_equal. Qed.

Lemma length_lstrip s : String.length (lstrip s) <= String.length s.
Proof.
  induction s as [|c s IH]; [reflexivity|].
  cbn [lstrip]. destruct (isspace c); cbn [String.length]; lia.
Qed.

Lemma length_rstrip s : String.length (rstrip s) <= String.length s.
Proof.
  induction s as [|c s IH]; [reflexivity|].
  cbn [rstrip]. destruct (isspace c && is_empty (rstrip s)); cbn [String.length]; lia.
Qed.

Lemma length_strip s : String.length (strip s) <= String.length s.
Proof.
  unfold strip. pose proof (length_rstrip (lstrip s)). pose proof (length_lstrip s). lia.
Qed.

Lemma startswith_length s p :
  startswith s p = true -> String.length p <= String.length s.
Proof.
  revert s. induction p as [|a p IH]; intros [|b s] H; cbn in *; try lia;
    try discriminate.
  apply andb_true_iff in H as [_ H]. apply IH in H. lia.
Qed.

Lemma startswith_trans s t p :
  startswith s t = true -> startswith t p = true -> startswith s p = true.
Proof.
  intros Hst Htp.
  apply startswith_spec in Hst as [x ->]. apply startswith_spec in Htp as [y ->].
  apply startswith_spec. exists (y +:+ x). apply sapp_assoc.
Qed.


(** X11.  A normalized text holds no upper-case letter, does not begin with
    white space, and stripping it again changes nothing. *)
Theorem normalized_text_shape (x : string) :
  upper_free (normalize x) = true
  /\ clean_head (normalize x)
  /\ strip (normalize x) = normalize x.
Proof.
  assert (forall y, normalize y = lower (strip y)) as Hn by reflexivity.
  rewrite !Hn. split; [apply upper_free_lower|]. split.
  - rewrite <- strip_lower. unfold strip.
    apply rstrip_clean_head, lstrip_clean_head.
  - now rewrite strip_lower, strip_idem.
Qed.

End CaseFacts.

(** ** Patterns that need a digit *)

Section DigitFacts.

Variable ic : bool.









End DigitFacts.

Section DigitPatterns.









End DigitPatterns.

(** ** The workflow: what every run keeps, and the rule-based path *)

Section WorkflowRuns.

Variable LLM_AVAILABLE : bool.
Variable json_loads : string -> option json.
Variable py_repr : json -> string.

(** The rendering stage, when it returns, changes the structured output and
    the confidence only, and chooses them as follows. *)
Lemma generate_structured_output_result llm st st' :
  run llm (generate_structured_output py_repr st) = Done st' ->
  exists out conf,
    st' = render st out conf
    /\ In conf [0.5; 0.95; 0.92; 0.90; 0.88; 0.7]%Q
    /\ is_empty out = false.
Proof.
  unfold generate_structured_output, params_get.
  destruct (no_algo (detected_algo st)).
  { intros [= <-]. eexists _, _. split; [reflexivity|]. split; [now left | reflexivity]. }
  repeat match goal with
         | |- context [if ?b then _ else _] => destruct b
         end;
    destruct (parameters st) eqn:Hp; cbn [bind run]; try discriminate;
    try (intros [= <-]; eexists _, _; (split; [reflexivity|]);
         split; [cbn [In]; tauto | reflexivity]).
  destruct (dict_get _ _ _); cbn [run]; try discriminate.
  intros [= <-]; eexists _, _; (split; [reflexivity|]);
    split; [cbn [In]; tauto | reflexivity].
Qed.

Lemma generate_structured_output_silent llm st :
  calls llm (generate_structured_output py_repr st) = [].
Proof.
  unfold generate_structured_output, params_get.
  destruct (no_algo (detected_algo st)); [reflexivity|].
  repeat match goal with
         | |- context [if ?b then _ else _] => destruct b
         end;
    destruct (parameters st); try reflexivity.
  cbn [bind]. now destruct (dict_get _ _ _).
Qed.

Lemma extract_parameters_keeps llm st st' :
  run llm (extract_parameters LLM_AVAILABLE json_loads st) = Done st' ->
  exists params, st' = with_parameters st params.
Proof.
  unfold extract_parameters.
  destruct (no_algo (detected_algo st)); [intros [= <-]; eauto|].
  destruct (negb LLM_AVAILABLE); [intros [= <-]; eauto|].
  cbn [run]. destruct (llm _) as [content | e]; [|intros [= <-]; eauto].
  destruct (Re.search false JSON_RE (strip content)); [|intros [= <-]; eauto].
  destruct (json_loads _); intros [= <-]; eauto.
Qed.

Lemma detect_algorithm_keeps llm st :
  exists algo why,
    run llm (detect_algorithm LLM_AVAILABLE st)
    = Done (with_reasoning (with_detected_algo st algo) why).
Proof.
  unfold detect_algorithm. destruct (negb LLM_AVAILABLE); [cbn [run]; eauto|].
  cbn [run]. destruct (llm _) as [content | e]; [|eauto].
  destruct (Re.search true ALGORITHM_RE (strip content)); eauto.
Qed.

(** The stages of a completed run, one after the other. *)
Lemma trader_text_graph_stages llm st0 st' :
  run llm (trader_text_graph LLM_AVAILABLE json_loads py_repr st0) = Done st' ->
  exists algo why params out conf,
    run llm (detect_algorithm LLM_AVAILABLE (normalize_input st0))
    = Done (with_reasoning (with_detected_algo (normalize_input st0) algo) why)
    /\ run llm (extract_parameters LLM_AVAILABLE json_loads
                  (with_reasoning (with_detected_algo (normalize_input st0) algo) why))
       = Done (with_parameters
                 (with_reasoning (with_detected_algo (normalize_input st0) algo) why)
                 params)
    /\ st' = render (with_parameters
                       (with_reasoning
                          (with_detected_algo (normalize_input st0) algo) why)
                       params) out conf
    /\ In conf [0.5; 0.95; 0.92; 0.90; 0.88; 0.7]%Q
    /\ is_empty out = false.
Proof.
  intros Hrun. unfold trader_text_graph in Hrun. cbn [bind] in Hrun.
  rewrite run_bind in Hrun.
  destruct (detect_algorithm_keeps llm (normalize_input st0)) as (algo & why & Hd).
  rewrite Hd in Hrun. rewrite run_bind in Hrun.
  destruct (run llm (extract_parameters LLM_AVAILABLE json_loads _))
    as [st3 | e] eqn:He; [|discriminate Hrun].
  destruct (extract_parameters_keeps llm _ _ He) as (params & ->).
  destruct (generate_structured_output_result llm _ _ Hrun)
    as (out & conf & -> & Hconf & Hout).
  exists algo, why, params, out, conf. auto.
Qed.

(** X1.  Whenever the workflow completes, on either path and whatever the
    backend answers, the confidence is one of the six constants of the
    renderer, hence between 0 and 1, and the structured output is not
    empty. *)
Theorem completed_run_confidence
    (llm : request -> reply) (st0 st' : TraderTextState) :
  run llm (trader_text_graph LLM_AVAILABLE json_loads py_repr st0) = Done st' ->
  (0 <= confidence st')%Q /\ (confidence st' <= 1)%Q
  /\ structured_output st' <> "".
Proof.
  intros Hrun.
  destruct (trader_text_graph_stages llm st0 st' Hrun)
    as (algo & why & params & out & conf & _ & _ & -> & Hconf & Hout).
  cbn [render with_confidence with_structured_output confidence structured_output].
  split; [|split].
  - cbn [In] in Hconf.
    destruct Hconf as [<- | [<- | [<- | [<- | [<- | [<- | []]]]]]];
      vm_compute; discriminate.
  - cbn [In] in Hconf.
    destruct Hconf as [<- | [<- | [<- | [<- | [<- | [<- | []]]]]]];
      vm_compute; discriminate.
  - intros ->. discriminate Hout.
Qed.

(** X9.  Whenever the workflow completes, the input text of the final state
    is the one it was given, and the normalized text is its normalization:
    no stage after the first touches either. *)
Theorem completed_run_keeps_input
    (llm : request -> reply) (st0 st' : TraderTextState) :
  run llm (trader_text_graph LLM_AVAILABLE json_loads py_repr st0) = Done st' ->
  input_text st' = input_text st0
  /\ normalized_text st' = lower (strip (input_text st0)).
Proof.
  intros Hrun.
  destruct (trader_text_graph_stages llm st0 st' Hrun)
    as (algo & why & params & out & conf & _ & _ & -> & _ & _).
  split; reflexivity.
Qed.

End WorkflowRuns.

Lemma completed_run_confidence_witness :
  exists st' : TraderTextState,
    run (replying "ALGORITHM: pov
REASON: a share of the volume")
        (trader_text_graph true Json.loads no_repr
                           (initial_state "Take part in the volume")) = Done st'
    /\ (0 <= confidence st')%Q /\ (confidence st' <= 1)%Q
    /\ structured_output st' <> "".
Proof.
  eexists. split; [vm_compute; reflexivity|].
  apply (completed_run_confidence true Json.loads no_repr
           (replying "ALGORITHM: pov
REASON: a share of the volume")
           (initial_state "Take part in the volume")).
  vm_compute. reflexivity.
Defined.

Lemma completed_run_keeps_input_witness :
  exists st' : TraderTextState,
    run backend_down
        (trader_text_graph false Json.loads no_repr
                           (initial_state "  POV 15% until the close ")) = Done st'
    /\ input_text st' = "  POV 15% until the close "
    /\ normalized_text st' = "pov 15% until the close".
Proof.
  eexists. split; [vm_compute; reflexivity|].
  apply (completed_run_keeps_input false Json.loads no_repr backend_down
           (initial_state "  POV 15% until the close ")).
  vm_compute. reflexivity.
Defined.

(** ** The rule-based path, stage by stage *)

Section RuleBasedPath.

Variable json_loads : string -> option json.
Variable py_repr : json -> string.

(** The algorithm the rule-based detection stores for a normalized text. *)
Lemma detect_algorithm_rules st :
  detect_algorithm false st
  = Ret (with_reasoning
           (with_detected_algo st
              (if contains "vwap" (normalized_text st) then Some "vwap"
               else if contains "twap" (normalized_text st) then Some "twap"
               else if contains "pov" (normalized_text st)
                       || contains "participation" (normalized_text st)
               then Some "pov"
               else if contains "aggressive" (normalized_text st)
                       || contains "urgent" (normalized_text st)
                       || contains "shortfall" (normalized_text st)
               then Some "implementation_shortfall"
               else None))
           "Rule-based detection (LLM not available)").
Proof. reflexivity. Qed.

Lemma extract_vwap st :
  detected_algo st = Some "vwap" ->
  extract_parameters false json_loads st
  = Ret (with_parameters st
           (JObj (<["start_time" := JStr "09:30"]>
                    (<["include_auctions" := JBool (contains "auction" (normalized_text st))]>
                       (<["end_time" := JStr match Re.search false TIME_RE (normalized_text st) with
                                             | Some m => Re.group m 1 +:+ ":" +:+ Re.group m 2
                                             | None => "16:00"
                                             end]> ∅))))).
Proof. intros H. unfold extract_parameters. rewrite H. reflexivity. Qed.

Lemma extract_twap st :
  detected_algo st = Some "twap" ->
  extract_parameters false json_loads st
  = Ret (with_parameters st
           (JObj (<["duration" := JStr match Re.search false DURATION_RE (normalized_text st) with
                                       | Some m => Re.group m 1 +:+ " " +:+ Re.group m 2
                                       | None => "full day"
                                       end]> ∅))).
Proof.
  intros H. unfold extract_parameters. rewrite H. cbn [no_algo is_empty negb default].
  change (String.eqb "twap" "vwap") with false.
  change (String.eqb "twap" "twap") with true. cbv iota.
  now destruct (Re.search false DURATION_RE (normalized_text st)).
Qed.

Lemma extract_pov st :
  detected_algo st = Some "pov" ->
  extract_parameters false json_loads st
  = Ret (with_parameters st
           (JObj (<["participation_rate" := JStr match Re.search false PERCENT_RE (normalized_text st) with
                                                 | Some m => Re.group m 1 +:+ "%"
                                                 | None => "10%"
                                                 end]> ∅))).
Proof.
  intros H. unfold extract_parameters. rewrite H. cbn [no_algo is_empty negb default].
  change (String.eqb "pov" "vwap") with false.
  change (String.eqb "pov" "twap") with false.
  change (String.eqb "pov" "pov") with true. cbv iota.
  now destruct (Re.search false PERCENT_RE (normalized_text st)).
Qed.

Lemma extract_shortfall st :
  detected_algo st = Some "implementation_shortfall" ->
  extract_parameters false json_loads st
  = Ret (with_parameters st
           (JObj (<["urgency" := JStr (if contains "aggressive" (normalized_text st)
                                          || contains "urgent" (normalized_text st)
                                       then "high" else "medium")]> ∅))).
Proof.
  intros H. unfold extract_parameters. rewrite H. cbn [no_algo is_empty negb default].
  change (String.eqb "implementation_shortfall" "vwap") with false.
  change (String.eqb "implementation_shortfall" "twap") with false.
  change (String.eqb "implementation_shortfall" "pov") with false.
  change (String.eqb "implementation_shortfall" "implementation_shortfall") with true.
  cbv iota. cbn [existsb]. now rewrite orb_false_r.
Qed.

Lemma render_vwap st end_time auctions :
  detected_algo st = Some "vwap" ->
  parameters st
  = JObj (<["start_time" := JStr "09:30"]>
            (<["include_auctions" := JBool auctions]>
               (<["end_time" := JStr end_time]> ∅))) ->
  generate_structured_output py_repr st
  = Ret (render st ("VWAP Market Close [" +:+ end_time +:+ "]"
                    +:+ (if auctions then " on all auctions" else "")) 0.95).
Proof.
  intros Ha Hp. unfold generate_structured_output. rewrite Ha, Hp. reflexivity.
Qed.

Lemma render_twap st duration :
  detected_algo st = Some "twap" ->
  parameters st = JObj (<["duration" := JStr duration]> ∅) ->
  generate_structured_output py_repr st
  = Ret (render st ("TWAP execution over " +:+ duration) 0.92).
Proof.
  intros Ha Hp. unfold generate_structured_output. rewrite Ha, Hp. reflexivity.
Qed.

Lemma render_pov st rate :
  detected_algo st = Some "pov" ->
  parameters st = JObj (<["participation_rate" := JStr rate]> ∅) ->
  generate_structured_output py_repr st
  = Ret (render st ("POV " +:+ rate +:+ " participation rate") 0.90).
Proof.
  intros Ha Hp. unfold generate_structured_output. rewrite Ha, Hp. reflexivity.
Qed.

Lemma render_shortfall st urgency :
  detected_algo st = Some "implementation_shortfall" ->
  parameters st = JObj (<["urgency" := JStr urgency]> ∅) ->
  generate_structured_output py_repr st
  = Ret (render st ("Implementation Shortfall - " +:+ capitalize urgency
                    +:+ " urgency profile") 0.88).
Proof.
  intros Ha Hp. unfold generate_structured_output. rewrite Ha, Hp. reflexivity.
Qed.

Lemma render_none st :
  detected_algo st = None ->
  generate_structured_output py_repr st
  = Ret (render st ("Custom execution: " +:+ input_text st) 0.5).
Proof. intros Ha. unfold generate_structured_output. now rewrite Ha. Qed.

Lemma extract_none avail st :
  detected_algo st = None ->
  extract_parameters avail json_loads st = Ret (with_parameters st EMPTY).
Proof. intros Ha. unfold extract_parameters. now rewrite Ha. Qed.

End RuleBasedPath.

Section RuleBasedWorkflow.

Variable json_loads : string -> option json.
Variable py_repr : json -> string.

Abbreviation rule_state st0 algo :=
  (with_reasoning (with_detected_algo (normalize_input st0) algo)
                  "Rule-based detection (LLM not available)").

Abbreviation ntext st0 := (lower (strip (input_text st0))).

Lemma graph_vwap st0 :
  contains "vwap" (ntext st0) = true ->
  trader_text_graph false json_loads py_repr st0
  = Ret (render
           (with_parameters (rule_state st0 (Some "vwap"))
              (JObj (<["start_time" := JStr "09:30"]>
                       (<["include_auctions" := JBool (contains "auction" (ntext st0))]>
                          (<["end_time" := JStr match Re.search false TIME_RE (ntext st0) with
                                                | Some m => Re.group m 1 +:+ ":" +:+ Re.group m 2
                                                | None => "16:00"
                                                end]> ∅)))))
           ("VWAP Market Close ["
            +:+ match Re.search false TIME_RE (ntext st0) with
                | Some m => Re.group m 1 +:+ ":" +:+ Re.group m 2
                | None => "16:00"
                end
            +:+ "]" +:+ (if contains "auction" (ntext st0)
                         then " on all auctions" else ""))
           0.95).
Proof.
  intros Hv. unfold trader_text_graph. cbn [bind].
  rewrite detect_algorithm_rules.
  cbn [normalize_input with_normalized_text normalized_text]. rewrite Hv.
  cbn [bind]. rewrite extract_vwap by reflexivity. cbn [bind].
  erewrite render_vwap; reflexivity.
Qed.

Lemma graph_twap st0 :
  contains "vwap" (ntext st0) = false ->
  contains "twap" (ntext st0) = true ->
  trader_text_graph false json_loads py_repr st0
  = Ret (render
           (with_parameters (rule_state st0 (Some "twap"))
              (JObj (<["duration" := JStr match Re.search false DURATION_RE (ntext st0) with
                                          | Some m => Re.group m 1 +:+ " " +:+ Re.group m 2
                                          | None => "full day"
                                          end]> ∅)))
           ("TWAP execution over "
            +:+ match Re.search false DURATION_RE (ntext st0) with
                | Some m => Re.group m 1 +:+ " " +:+ Re.group m 2
                | None => "full day"
                end)
           0.92).
Proof.
  intros Hv Ht. unfold trader_text_graph. cbn [bind].
  rewrite detect_algorithm_rules.
  cbn [normalize_input with_normalized_text normalized_text]. rewrite Hv, Ht.
  cbn [bind]. rewrite extract_twap by reflexivity. cbn [bind].
  erewrite render_twap; reflexivity.
Qed.

Lemma graph_pov st0 :
  contains "vwap" (ntext st0) = false ->
  contains "twap" (ntext st0) = false ->
  contains "pov" (ntext st0) || contains "participation" (ntext st0) = true ->
  trader_text_graph false json_loads py_repr st0
  = Ret (render
           (with_parameters (rule_state st0 (Some "pov"))
              (JObj (<["participation_rate" := JStr match Re.search false PERCENT_RE (ntext st0) with
                                                    | Some m => Re.group m 1 +:+ "%"
                                                    | None => "10%"
                                                    end]> ∅)))
           ("POV "
            +:+ match Re.search false PERCENT_RE (ntext st0) with
                | Some m => Re.group m 1 +:+ "%"
                | None => "10%"
                end
            +:+ " participation rate")
           0.90).
Proof.
  intros Hv Ht Hp. unfold trader_text_graph. cbn [bind].
  rewrite detect_algorithm_rules.
  cbn [normalize_input with_normalized_text normalized_text]. rewrite Hv, Ht, Hp.
  cbn [bind]. rewrite extract_pov by reflexivity. cbn [bind].
  erewrite render_pov; reflexivity.
Qed.

Lemma graph_shortfall st0 :
  contains "vwap" (ntext st0) = false ->
  contains "twap" (ntext st0) = false ->
  contains "pov" (ntext st0) || contains "participation" (ntext st0) = false ->
  contains "aggressive" (ntext st0) || contains "urgent" (ntext st0)
  || contains "shortfall" (ntext st0) = true ->
  trader_text_graph false json_loads py_repr st0
  = Ret (render
           (with_parameters (rule_state st0 (Some "implementation_shortfall"))
              (JObj (<["urgency" := JStr (if contains "aggressive" (ntext st0)
                                             || contains "urgent" (ntext st0)
                                          then "high" else "medium")]> ∅)))
           ("Implementation Shortfall - "
            +:+ (if contains "aggressive" (ntext st0) || contains "urgent" (ntext st0)
                 then "High" else "Medium")
            +:+ " urgency profile")
           0.88).
Proof.
  intros Hv Ht Hp Hs. unfold trader_text_graph. cbn [bind].
  rewrite detect_algorithm_rules.
  cbn [normalize_input with_normalized_text normalized_text]. rewrite Hv, Ht, Hp, Hs.
  cbn [bind]. rewrite extract_shortfall by reflexivity. cbn [bind].
  erewrite render_shortfall; [|reflexivity|reflexivity].
  cbn [normalize_input with_normalized_text with_detected_algo with_reasoning
       normalized_text].
  now destruct (contains "aggressive" (ntext st0) || contains "urgent" (ntext st0)).
Qed.

Lemma graph_none st0 :
  contains "vwap" (ntext st0) = false ->
  contains "twap" (ntext st0) = false ->
  contains "pov" (ntext st0) || contains "participation" (ntext st0) = false ->
  contains "aggressive" (ntext st0) || contains "urgent" (ntext st0)
  || contains "shortfall" (ntext st0) = false ->
  trader_text_graph false json_loads py_repr st0
  = Ret (render (with_parameters (rule_state st0 None) EMPTY)
                ("Custom execution: " +:+ input_text st0) 0.5).
Proof.
  intros Hv Ht Hp Hs. unfold trader_text_graph. cbn [bind].
  rewrite detect_algorithm_rules.
  cbn [normalize_input with_normalized_text normalized_text]. rewrite Hv, Ht, Hp, Hs.
  cbn [bind]. rewrite extract_none by reflexivity. cbn [bind].
  now rewrite render_none.
Qed.

(** The rule-based workflow is a plain return. *)
Lemma rule_based_graph_returns (st0 : TraderTextState) :
  exists st : TraderTextState,
    trader_text_graph false json_loads py_repr st0 = Ret st
    /\ (detected_algo st = None
        \/ exists a : AlgoType, detected_algo st = Some (AlgoType_value a))
    /\ (exists params : gmap string json, parameters st = JObj params)
    /\ reasoning st = "Rule-based detection (LLM not available)".
Proof.
  destruct (contains "vwap" (ntext st0)) eqn:Hv.
  { eexists. split; [now apply graph_vwap|].
    split; [right; now exists VWAP|]. split; [eexists|]; reflexivity. }
  destruct (contains "twap" (ntext st0)) eqn:Ht.
  { eexists. split; [now apply graph_twap|].
    split; [right; now exists TWAP|]. split; [eexists|]; reflexivity. }
  destruct (contains "pov" (ntext st0) || contains "participation" (ntext st0)) eqn:Hp.
  { eexists. split; [now apply graph_pov|].
    split; [right; now exists POV|]. split; [eexists|]; reflexivity. }
  destruct (contains "aggressive" (ntext st0) || contains "urgent" (ntext st0)
            || contains "shortfall" (ntext st0)) eqn:Hs.
  { eexists. split; [now apply graph_shortfall|].
    split; [right; now exists IMPLEMENTATION_SHORTFALL|].
    split; [eexists|]; reflexivity. }
  eexists. split; [now apply graph_none|].
  split; [now left|]. split; [eexists|]; reflexivity.
Qed.

(** X2.  Without the backend the workflow is a plain return for every
    input: no backend call and no exception.  The algorithm it detects is
    none or the value of one of the four AlgoType members, the parameters
    are a dictionary, and the reasoning is the fixed rule-based text. *)
Theorem rule_based_workflow_returns (st0 : TraderTextState) :
  exists st : TraderTextState,
    trader_text_graph false json_loads py_repr st0 = Ret st
    /\ (detected_algo st = None
        \/ exists a : AlgoType, detected_algo st = Some (AlgoType_value a))
    /\ (exists params : gmap string json, parameters st = JObj params)
    /\ reasoning st = "Rule-based detection (LLM not available)".
Proof. exact (rule_based_graph_returns st0). Qed.

(** X3.  Without the backend, an input whose normalized text contains vwap
    is rendered as "VWAP Market Close [<end_time>]", followed by
    " on all auctions" exactly when the normalized text contains auction;
    the parameters hold start_time "09:30", that end_time and the auction
    flag, and the confidence is 0.95. *)
Theorem vwap_rendering_rule_based (st0 : TraderTextState) :
  occurs_in "vwap" (normalize (input_text st0)) ->
  exists (st : TraderTextState) (end_time : string),
    trader_text_graph false json_loads py_repr st0 = Ret st
    /\ detected_algo st = Some "vwap"
    /\ parameter st "start_time" = Some (JStr "09:30")
    /\ parameter st "end_time" = Some (JStr end_time)
    /\ parameter st "include_auctions"
       = Some (JBool (contains "auction" (normalize (input_text st0))))
    /\ structured_output st
       = "VWAP Market Close [" +:+ end_time +:+ "]"
         +:+ (if contains "auction" (normalize (input_text st0))
              then " on all auctions" else "")
    /\ confidence st = 0.95%Q.
Proof.
  change (normalize (input_text st0)) with (ntext st0).
  intros Hv. apply contains_spec in Hv.
  eexists _, _. split; [now apply graph_vwap|].
  repeat split.
Qed.

(** X4.  Without the backend, an input detected as implementation shortfall
    (none of vwap, twap, pov, participation in the normalized text, and one
    of aggressive, urgent, shortfall) gets urgency high when the text
    contains aggressive or urgent and medium otherwise, rendered
    capitalized, with confidence 0.88. *)
Theorem shortfall_urgency_rule_based (st0 : TraderTextState) :
  ~ occurs_in "vwap" (normalize (input_text st0)) ->
  ~ occurs_in "twap" (normalize (input_text st0)) ->
  ~ occurs_in "pov" (normalize (input_text st0)) ->
  ~ occurs_in "participation" (normalize (input_text st0)) ->
  occurs_in "aggressive" (normalize (input_text st0))
  \/ occurs_in "urgent" (normalize (input_text st0))
  \/ occurs_in "shortfall" (normalize (input_text st0)) ->
  exists st : TraderTextState,
    trader_text_graph false json_loads py_repr st0 = Ret st
    /\ detected_algo st = Some "implementation_shortfall"
    /\ parameter st "urgency"
       = Some (JStr (if contains "aggressive" (normalize (input_text st0))
                        || contains "urgent" (normalize (input_text st0))
                     then "high" else "medium"))
    /\ structured_output st
       = "Implementation Shortfall - "
         +:+ (if contains "aggressive" (normalize (input_text st0))
                 || contains "urgent" (normalize (input_text st0))
              then "High" else "Medium")
         +:+ " urgency profile"
    /\ confidence st = 0.88%Q.
Proof.
  change (normalize (input_text st0)) with (ntext st0).
  intros Hv Ht Hp Hpa Hs.
  apply contains_false in Hv, Ht, Hp, Hpa.
  eexists. split.
  - apply graph_shortfall; try assumption.
    + now rewrite Hp, Hpa.
    + destruct Hs as [H | [H | H]]; apply contains_spec in H; rewrite H;
        now rewrite ?orb_true_r.
  - repeat split.
Qed.


End RuleBasedWorkflow.

Lemma vwap_rendering_rule_based_witness :
  exists st : TraderTextState,
    trader_text_graph false Json.loads no_repr
                      (initial_state "VWAP until 15:45 incl. closing auction") = Ret st
    /\ structured_output st = "VWAP Market Close [15:45] on all auctions".
Proof.
  destruct (vwap_rendering_rule_based Json.loads no_repr
              (initial_state "VWAP until 15:45 incl. closing auction"))
    as (st & end_time & Hrun & _ & _ & Hend & _ & Hout & _).
  { apply contains_spec. vm_compute. reflexivity. }
  exists st. split; [exact Hrun|].
  rewrite Hout. vm_compute in Hrun. injection Hrun as <-.
  vm_compute in Hend. injection Hend as <-. vm_compute. reflexivity.
Defined.

Lemma shortfall_urgency_rule_based_witness :
  exists st : TraderTextState,
    trader_text_graph false Json.loads no_repr
                      (initial_state "Minimise the shortfall") = Ret st
    /\ structured_output st = "Implementation Shortfall - Medium urgency profile".
Proof.
  destruct (shortfall_urgency_rule_based Json.loads no_repr
              (initial_state "Minimise the shortfall"))
    as (st & Hrun & _ & _ & Hout & _);
    try (apply contains_false; vm_compute; reflexivity).
  { right. right. apply contains_spec. vm_compute. reflexivity. }
  exists st. split; [exact Hrun|]. rewrite Hout. vm_compute. reflexivity.
Defined.


(** ** The workflow and the backend *)

Section BackendCalls.

Variable json_loads : string -> option json.
Variable py_repr : json -> string.

Lemma calls_detect_algorithm llm st :
  calls llm (detect_algorithm true st) = [AlgorithmPrompt (input_text st)].
Proof.
  unfold detect_algorithm. cbn [negb calls]. now destruct (llm _).
Qed.

Lemma calls_extract_parameters llm st :
  calls llm (extract_parameters true json_loads st)
  = if no_algo (detected_algo st) then []
    else [ParametersPrompt (default "" (detected_algo st)) (input_text st)].
Proof.
  unfold extract_parameters. destruct (no_algo (detected_algo st)); [reflexivity|].
  cbn [negb calls]. destruct (llm _) as [content | e]; [|reflexivity].
  destruct (Re.search false JSON_RE (strip content)); [|reflexivity].
  now destruct (json_loads _).
Qed.

(** The requests of the workflow. *)
Lemma graph_backend_calls (llm : request -> reply) (st0 : TraderTextState) :
  (exists st2 : TraderTextState,
      run llm (detect_algorithm true (normalize_input st0)) = Done st2
      /\ calls llm (trader_text_graph true json_loads py_repr st0)
         = AlgorithmPrompt (input_text st0)
           :: (if no_algo (detected_algo st2) then []
               else [ParametersPrompt (default "" (detected_algo st2))
                                      (input_text st0)]))
  /\ calls llm (trader_text_graph false json_loads py_repr st0) = [].
Proof.
  split.
  - destruct (detect_algorithm_keeps true llm (normalize_input st0))
      as (algo & why & Hd).
    eexists. split; [exact Hd|].
    unfold trader_text_graph. cbn [bind].
    rewrite calls_bind, calls_detect_algorithm, Hd, calls_bind,
      calls_extract_parameters.
    cbn [app]. f_equal.
    destruct (run llm (extract_parameters true json_loads _)) as [st3 | e].
    + rewrite generate_structured_output_silent. now rewrite app_nil_r.
    + now rewrite app_nil_r.
  - destruct (rule_based_graph_returns json_loads py_repr st0) as (st & -> & _).
    reflexivity.
Qed.

(** X6.  With the backend the workflow issues one detection request and,
    only when an algorithm was detected, one parameter request, in this
    order and never more; both carry the original input text, not the
    normalized one.  Without the backend it issues none. *)
Theorem workflow_backend_calls (llm : request -> reply) (st0 : TraderTextState) :
  (exists st2 : TraderTextState,
      run llm (detect_algorithm true (normalize_input st0)) = Done st2
      /\ calls llm (trader_text_graph true json_loads py_repr st0)
         = AlgorithmPrompt (input_text st0)
           :: (if no_algo (detected_algo st2) then []
               else [ParametersPrompt (default "" (detected_algo st2))
                                      (input_text st0)]))
  /\ calls llm (trader_text_graph false json_loads py_repr st0) = [].
Proof. exact (graph_backend_calls llm st0). Qed.

(** X7.  With the backend, when the detection call raises, the workflow
    still completes: no algorithm, empty parameters, the custom rendering of
    the input with confidence 0.5, the error message in the reasoning; and
    no parameter request is made. *)
Theorem failed_detection_degrades
    (llm : request -> reply) (st0 : TraderTextState) (err : string) :
  llm (AlgorithmPrompt (input_text st0)) = Raised err ->
  run llm (trader_text_graph true json_loads py_repr st0)
  = Done (render
            (with_parameters
               (with_reasoning (with_detected_algo (normalize_input st0) None)
                               ("Error: " +:+ err))
               EMPTY)
            ("Custom execution: " +:+ input_text st0) 0.5)
  /\ calls llm (trader_text_graph true json_loads py_repr st0)
     = [AlgorithmPrompt (input_text st0)].
Proof.
  intros Herr.
  assert (run llm (detect_algorithm true (normalize_input st0))
          = Done (with_reasoning (with_detected_algo (normalize_input st0) None)
                                 ("Error: " +:+ err))) as Hd.
  { unfold detect_algorithm. cbn [negb run normalize_input with_normalized_text input_text].
    now rewrite Herr. }
  split.
  - unfold trader_text_graph. cbn [bind].
    rewrite run_bind, Hd, run_bind, extract_none by reflexivity.
    cbn [run]. now rewrite render_none.
  - destruct (graph_backend_calls llm st0) as [(st2 & Hd2 & ->) _].
    rewrite Hd in Hd2. now injection Hd2 as <-.
Qed.

(** X8.  The renderer raises on an implementation-shortfall state whose
    urgency parameter is present and not a string: the value is
    capitalized as a string without a check, so a reply such as
    {"urgency": 3} makes the workflow fail instead of degrading. *)
Theorem non_string_urgency_raises
    (st : TraderTextState) (params : gmap string json) (v : json) :
  detected_algo st = Some "implementation_shortfall" ->
  parameters st = JObj params ->
  params !! "urgency" = Some v ->
  (forall s : string, v <> JStr s) ->
  generate_structured_output py_repr st = Raise "AttributeError".
Proof.
  intros Ha Hp Hv Hns. unfold generate_structured_output. rewrite Ha, Hp.
  cbn [no_algo is_empty default].
  change (String.eqb "implementation_shortfall" "vwap") with false.
  change (String.eqb "implementation_shortfall" "twap") with false.
  change (String.eqb "implementation_shortfall" "pov") with false.
  change (String.eqb "implementation_shortfall" "implementation_shortfall") with true.
  cbv iota. cbn [params_get bind]. unfold dict_get. rewrite Hv. cbn [default].
  destruct v; try reflexivity. now destruct (Hns s).
Qed.

End BackendCalls.

Lemma failed_detection_degrades_witness :
  exists st : TraderTextState,
    run backend_down
        (trader_text_graph true Json.loads no_repr (initial_state "VWAP Market Close"))
    = Done st
    /\ detected_algo st = None
    /\ structured_output st = "Custom execution: VWAP Market Close"
    /\ reasoning st = "Error: Connection error.".
Proof.
  eexists. split.
  - apply (failed_detection_degrades Json.loads no_repr backend_down
             (initial_state "VWAP Market Close") "Connection error.").
    reflexivity.
  - repeat split.
Defined.

Lemma non_string_urgency_raises_witness :
  generate_structured_output no_repr
    (with_parameters
       (with_detected_algo (normalize_input (initial_state "Get it done"))
                           (Some "implementation_shortfall"))
       (JObj (<["urgency" := JInt 3]> ∅)))
  = Raise "AttributeError".
Proof.
  apply (non_string_urgency_raises no_repr _ (<["urgency" := JInt 3]> ∅) (JInt 3));
    [reflexivity | reflexivity | reflexivity | discriminate].
Defined.

(** ** Order parsing *)

Section FallbackOrders.

Lemma int_acc_nonneg s : forall acc, (0 <= acc)%Z -> (0 <= int_acc acc s)%Z.
Proof.
  induction s as [|c s IH]; intros acc Hacc; [exact Hacc|].
  cbn [int_acc]. apply IH. unfold digit_value. lia.
Qed.

Lemma int_of_digits_nonneg s : (0 <= int_of_digits s)%Z.
Proof. now apply int_acc_nonneg. Qed.

Lemma float_of_decimal_nonneg s : (0 <= float_of_decimal s)%Q.
Proof.
  unfold float_of_decimal. destruct (span_digits s) as [ip r].
  rewrite Qred_correct. unfold Qle. cbn [Qnum Qden].
  pose proof (int_of_digits_nonneg
                (ip +:+ match r with
                        | String "."%char f => fst (span_digits f)
                        | _ => EmptyString
                        end)).
  lia.
Qed.




(** X14.  A quantity or a price that the rule-based order extractor does
    return is never negative. *)
Theorem fallback_amounts_nonnegative (text : string) :
  match quantity (parse_natural_language_order_fallback text) with
  | Some q => (0 <= q)%Z
  | None => True
  end
  /\ match price (parse_natural_language_order_fallback text) with
     | Some p => (0 <= p)%Q
     | None => True
     end.
Proof.
  unfold parse_natural_language_order_fallback. cbn [quantity price]. split.
  - destruct (first_match qty_patterns (lower text)); cbn [option_map];
      [apply int_of_digits_nonneg | exact I].
  - destruct (first_match price_patterns (lower text)); cbn [option_map];
      [apply float_of_decimal_nonneg | exact I].
Qed.


(** X17.  The time in force of the rule-based order extractor follows the
    keyword priority GTC, then GTD, then FOK, and is DAY exactly when none
    of the six keywords occurs; the contact method follows email, then
    meeting, then portal, and is phone otherwise. *)
Theorem fallback_keyword_priority (text : string) :
  let order := parse_natural_language_order_fallback text in
  let has := fun kw : string => occurs_in kw (lower text) in
  (has "gtc" \/ has "good til cancel" -> time_in_force order = GTC)
  /\ (~ has "gtc" -> ~ has "good til cancel" ->
      has "gtd" \/ has "good til date" -> time_in_force order = GTD)
  /\ (~ has "gtc" -> ~ has "good til cancel" ->
      ~ has "gtd" -> ~ has "good til date" ->
      has "fok" \/ has "fill or kill" -> time_in_force order = FOK)
  /\ (time_in_force order = DAY ->
      ~ has "gtc" /\ ~ has "good til cancel" /\ ~ has "gtd"
      /\ ~ has "good til date" /\ ~ has "fok" /\ ~ has "fill or kill")
  /\ (has "email" -> contact_method order = EMAIL)
  /\ (~ has "email" -> has "meeting" \/ has "in person" ->
      contact_method order = MEETING)
  /\ (~ has "email" -> ~ has "meeting" -> ~ has "in person" ->
      has "portal" \/ has "online" -> contact_method order = PORTAL)
  /\ (~ has "email" -> ~ has "meeting" -> ~ has "in person" ->
      ~ has "portal" -> ~ has "online" -> contact_method order = PHONE).
Proof.
  intros order has. subst order has.
  unfold parse_natural_language_order_fallback.
  cbn [time_in_force contact_method].
  rewrite <- !contains_spec.
  repeat match goal with
         | |- context [contains ?kw (lower text)] =>
             destruct (contains kw (lower text))
         end;
    cbn [orb]; repeat split; intros; try reflexivity; try discriminate;
    repeat match goal with
           | H : _ \/ _ |- _ => destruct H
           | H : _ /\ _ |- _ => destruct H
           end;
    congruence.
Qed.

End FallbackOrders.


Lemma fallback_keyword_priority_witness :
  time_in_force (parse_natural_language_order_fallback
                   "Sell 5 TSLA, GTD, else fill or kill; confirm by email in person")
  = GTD
  /\ contact_method (parse_natural_language_order_fallback
                       "Sell 5 TSLA, GTD, else fill or kill; confirm by email in person")
     = EMAIL.
Proof.
  pose proof (fallback_keyword_priority
                "Sell 5 TSLA, GTD, else fill or kill; confirm by email in person")
    as (_ & Hgtd & _ & _ & Hemail & _).
  split.
  - apply Hgtd; [apply contains_false; reflexivity
                | apply contains_false; reflexivity
                | left; apply contains_spec; reflexivity].
  - apply Hemail. apply contains_spec. reflexivity.
Defined.


Section ModelBackedOrders.

Variable json_loads : string -> option json.
Variable coerce_int : json -> option Z.
Variable coerce_float : json -> option Q.







End ModelBackedOrders.

(** ** Autocomplete *)

Section AutocompleteTable.

Lemma suggestions_for_short t table :
  Forall (fun kv : string * list string => String.length t < String.length (fst kv))
         table ->
  suggestions_for t table = [].
Proof.
  induction 1 as [|[key cands] table Hk _ IH]; [reflexivity|].
  cbn [suggestions_for]. destruct (startswith t key) eqn:Hs; [|exact IH].
  apply startswith_length in Hs. cbn [fst] in Hk. lia.
Qed.

Lemma suggestions_for_origin t table :
  Forall (fun s => exists key cands,
              In (key, cands) table /\ In s cands
              /\ startswith t key = true /\ startswith (lower s) t = true)
         (suggestions_for t table).
Proof.
  induction table as [|[key cands] table IH]; [constructor|].
  cbn [suggestions_for]. destruct (startswith t key) eqn:Hk.
  - apply List.Forall_forall. intros s Hs. apply filter_In in Hs as [Hin Hp].
    exists key, cands. repeat split; [now left | assumption..].
  - eapply List.Forall_impl; [|exact IH].
    intros s (key' & cands' & Hin & Hs & Hk' & Hp).
    exists key', cands'. repeat split; [now right | assumption..].
Qed.

(** X19.  An input shorter than three characters gets no suggestion,
    whether or not the backend is available: the backend is not asked and
    every keyword of the rule-based table has at least three characters. *)
Theorem short_input_no_suggestions (LLM_AVAILABLE : bool) (text : string) :
  String.length text < 3 ->
  get_autocomplete_suggestions_with_llm LLM_AVAILABLE text = Ret [].
Proof.
  intros Hlen. unfold get_autocomplete_suggestions_with_llm.
  apply Nat.ltb_lt in Hlen as Hb. rewrite Hb, orb_true_r.
  unfold get_autocomplete_suggestions_fallback. rewrite suggestions_for_short; [reflexivity|].
  assert (String.length (strip (lower text)) < 3) as Hs.
  { pose proof (length_strip (lower text)). rewrite length_lower in *. lia. }
  unfold suggestions_map.
  repeat (constructor; [cbn [fst String.length]; lia|]). constructor.
Qed.

(** X20.  Every rule-based suggestion is a candidate of the table, listed
    under a keyword that the normalized input starts with, and itself starts
    with that keyword once lower-cased; there are at most three.  The
    candidate "Part of portfolio rebalancing strategy", listed under rebal,
    can therefore never be suggested. *)
Theorem suggestions_come_from_table (text : string) :
  Forall (fun s => exists (key : string) (candidates : list string),
              In (key, candidates) suggestions_map /\ In s candidates
              /\ startswith (strip (lower text)) key = true
              /\ startswith (lower s) key = true)
         (get_autocomplete_suggestions_fallback text)
  /\ length (get_autocomplete_suggestions_fallback text) <= 3
  /\ ~ In "Part of portfolio rebalancing strategy"
          (get_autocomplete_suggestions_fallback text).
Proof.
  assert (Forall (fun s => exists (key : string) (candidates : list string),
                      In (key, candidates) suggestions_map /\ In s candidates
                      /\ startswith (strip (lower text)) key = true
                      /\ startswith (lower s) key = true)
                 (get_autocomplete_suggestions_fallback text)) as Horigin.
  { eapply List.Forall_impl; [|apply suggestions_for_origin].
    intros s (key & cands & Hin & Hs & Hk & Hp).
    exists key, cands. repeat split; try assumption.
    eapply startswith_trans; eassumption. }
  split; [exact Horigin|]. split.
  - unfold get_autocomplete_suggestions_fallback.
    generalize (strip (lower text)). intros t. unfold suggestions_map.
    cbn [suggestions_for].
    repeat match goal with
           | |- context [if startswith t ?k then _ else _] =>
               destruct (startswith t k)
           end;
      try (cbn [length]; lia);
      match goal with
      | |- length (List.filter ?f ?l) <= _ =>
          pose proof (filter_length_le f l) as Hle; cbn [length] in Hle; lia
      end.
  - intros Hin. rewrite List.Forall_forall in Horigin.
    destruct (Horigin _ Hin) as (key & cands & Htab & Hs & _ & Hp).
    unfold suggestions_map in Htab. cbn [In] in Htab.
    repeat match goal with
           | H : _ \/ _ |- _ => destruct H
           | H : (_, _) = (_, _) |- _ => injection H as <- <-
           end;
      try contradiction; cbn [In] in Hs;
      repeat match goal with
             | H : _ \/ _ |- _ => destruct H
             end;
      try contradiction; try discriminate.
Qed.


End AutocompleteTable.

Lemma short_input_no_suggestions_witness :
  get_autocomplete_suggestions_with_llm true "vw" = Ret [].
Proof. apply short_input_no_suggestions. cbn. lia. Defined.

(** ** The HTTP surface *)

Section Enumerations.

(** X22.  The enumerations convert by exact value: a value is accepted
    exactly when it is the string value of a member, which is then the
    member returned; in particular the values are matched case-sensitively
    and every member's own value converts back to it. *)
Theorem enum_values_round_trip :
  (forall t : TimeInForce, TimeInForce_of (JStr (TimeInForce_value t)) = Some t)
  /\ (forall v : json,
         match TimeInForce_of v with
         | Some t => v = JStr (TimeInForce_value t)
         | None => True
         end)
  /\ (forall c : ContactMethod, ContactMethod_of (JStr (ContactMethod_value c)) = Some c)
  /\ (forall v : json,
         match ContactMethod_of v with
         | Some c => v = JStr (ContactMethod_value c)
         | None => True
         end)
  /\ (forall a : AlgoType, AlgoType_of (AlgoType_value a) = Some a)
  /\ (forall s : string,
         match AlgoType_of s with
         | Some a => s = AlgoType_value a
         | None => True
         end).
Proof.
  split; [now intros []|]. split.
  { intros [| | | | s | |]; try exact I. unfold TimeInForce_of.
    repeat match goal with
           | |- context [String.eqb s ?k] => destruct (String.eqb_spec s k) as [-> | _]
           end; try reflexivity; exact I. }
  split; [now intros []|]. split.
  { intros [| | | | s | |]; try exact I. unfold ContactMethod_of.
    repeat match goal with
           | |- context [String.eqb s ?k] => destruct (String.eqb_spec s k) as [-> | _]
           end; try reflexivity; exact I. }
  split; [now intros []|].
  intros s. unfold AlgoType_of.
  repeat match goal with
         | |- context [String.eqb s ?k] => destruct (String.eqb_spec s k) as [-> | _]
         end; try reflexivity; exact I.
Qed.

End Enumerations.

Section Catalog.








End Catalog.

Section TraderTextEndpoint.

Variable json_loads : string -> option json.
Variable py_repr : json -> string.

Lemma run_try_except {A} (llm : request -> reply) (p : prog A) (h : string -> prog A) :
  run llm (try_except p h)
  = match run llm p with
    | Done a => Done a
    | Failed e => run llm (h e)
    end.
Proof.
  induction p as [a | e | q k IH]; [reflexivity | reflexivity |].
  cbn [try_except run]. apply IH.
Qed.

(** X24.  Without the backend the trader-text endpoint answers every text
    with a body, never with an error: the algorithm of the final state is
    none or converts to its AlgoType member, the parameters are a
    dictionary and the confidence is in range.  The body carries the
    structured output, the parameters and the reasoning of the final
    state. *)
Theorem trader_text_endpoint_rule_based (text : string) :
  exists (st : TraderTextState) (body : Parsed.TraderTextParsed),
    trader_text_graph false json_loads py_repr (initial_state text) = Ret st
    /\ parse_trader_text_endpoint false json_loads py_repr text = Ret (OK body)
    /\ Parsed.structured body = structured_output st
    /\ option_map AlgoType_value (Parsed.algo body) = detected_algo st
    /\ JObj (Parsed.parameters body) = parameters st
    /\ Parsed.confidence body = confidence st
    /\ Parsed.reasoning body = "Rule-based detection (LLM not available)".
Proof.
  destruct (rule_based_graph_returns json_loads py_repr (initial_state text))
    as (st & Hrun & Halgo & (params & Hparams) & Hwhy).
  assert (Qle_bool 0 (confidence st) && Qle_bool (confidence st) 1 = true) as Hconf.
  { destruct (trader_text_graph_stages false json_loads py_repr backend_down
                (initial_state text) st)
      as (algo & why & ps & out & conf & _ & _ & -> & Hin & _).
    { now rewrite Hrun. }
    cbn [render with_confidence confidence]. cbn [In] in Hin.
    destruct Hin as [<- | [<- | [<- | [<- | [<- | [<- | []]]]]]]; reflexivity. }
  unfold parse_trader_text_endpoint. rewrite Hrun. cbn [bind].
  destruct Halgo as [Hnone | [a Ha]].
  - rewrite Hnone. cbn [no_algo bind]. rewrite Hparams, Hconf.
    eexists _, _. split; [reflexivity|]. split; [reflexivity|].
    cbn. now rewrite Hwhy.
  - rewrite Ha.
    assert (no_algo (Some (AlgoType_value a)) = false) as -> by now destruct a.
    change (default "" (Some (AlgoType_value a))) with (AlgoType_value a).
    assert (AlgoType_of (AlgoType_value a) = Some a) as -> by now destruct a.
    cbn [bind]. rewrite Hparams, Hconf.
    eexists _, _. split; [reflexivity|]. split; [reflexivity|].
    cbn. now rewrite Hwhy.
Qed.

(** X25.  On either path the trader-text endpoint answers with status 500
    when the workflow raised, and when the workflow completed with a
    detected algorithm that is not the value of an AlgoType member (any
    token of the model other than the four names and none). *)
Theorem trader_text_endpoint_server_error
    (LLM_AVAILABLE : bool) (llm : request -> reply) (text : string) :
  (forall e : string,
      run llm (trader_text_graph LLM_AVAILABLE json_loads py_repr (initial_state text))
      = Failed e ->
      run llm (parse_trader_text_endpoint LLM_AVAILABLE json_loads py_repr text)
      = Done (HTTPException 500 tt))
  /\ (forall (st : TraderTextState) (token : string),
         run llm (trader_text_graph LLM_AVAILABLE json_loads py_repr
                                    (initial_state text)) = Done st ->
         detected_algo st = Some token ->
         is_empty token = false ->
         AlgoType_of token = None ->
         run llm (parse_trader_text_endpoint LLM_AVAILABLE json_loads py_repr text)
         = Done (HTTPException 500 tt)).
Proof.
  split.
  - intros e Hrun. unfold parse_trader_text_endpoint.
    now rewrite run_try_except, run_bind, Hrun.
  - intros st token Hrun Htoken Hne Hnot. unfold parse_trader_text_endpoint.
    rewrite run_try_except, run_bind, Hrun, Htoken.
    cbn [no_algo]. change (default "" (Some token)) with token.
    now rewrite Hne, Hnot.
Qed.

End TraderTextEndpoint.

Lemma trader_text_endpoint_server_error_witness :
  run (replying "ALGORITHM: Momentum
REASON: the trader wants to follow the trend")
      (parse_trader_text_endpoint true Json.loads no_repr "ride the trend")
  = Done (HTTPException 500 tt)
  /\ run (fun q => match q with
                   | AlgorithmPrompt _ => Content "ALGORITHM: implementation_shortfall"
                   | _ => Content (Json.text "{'urgency': 3}")
                   end)
         (parse_trader_text_endpoint true Json.loads no_repr "get it done")
     = Done (HTTPException 500 tt).
Proof.
  split.
  - eapply (proj2 (trader_text_endpoint_server_error
                     Json.loads no_repr true _ "ride the trend"));
      [vm_compute; reflexivity | reflexivity | reflexivity | reflexivity].
  - eapply (proj1 (trader_text_endpoint_server_error
                     Json.loads no_repr true _ "get it done")).
    vm_compute. reflexivity.
Defined.

(** ** The reasoning read from a reply *)

Section Reasoning.








End Reasoning.


(** ** The renderer on what the backend hands it *)

Section Renderer.

Variable json_loads : string -> option json.
Variable py_repr : json -> string.
Variable coerce_int : json -> option Z.
Variable coerce_float : json -> option Q.

(** X27.  When the parameters are a dictionary that lacks the key the
    renderer reads (for instance the empty dictionary left by a failed
    extraction), the renderer uses its own defaults: end time 16:00 without
    the auction suffix, duration full day, rate 10%, urgency medium. *)
Theorem renderer_defaults (st : TraderTextState) (params : gmap string json) :
  parameters st = JObj params ->
  (detected_algo st = Some "vwap" ->
   params !! "end_time" = None -> params !! "include_auctions" = None ->
   generate_structured_output py_repr st
   = Ret (render st "VWAP Market Close [16:00]" 0.95))
  /\ (detected_algo st = Some "twap" -> params !! "duration" = None ->
      generate_structured_output py_repr st
      = Ret (render st "TWAP execution over full day" 0.92))
  /\ (detected_algo st = Some "pov" -> params !! "participation_rate" = None ->
      generate_structured_output py_repr st
      = Ret (render st "POV 10% participation rate" 0.90))
  /\ (detected_algo st = Some "implementation_shortfall" ->
      params !! "urgency" = None ->
      generate_structured_output py_repr st
      = Ret (render st "Implementation Shortfall - Medium urgency profile" 0.88)).
Proof.
  intros Hp. repeat split; intros Ha; intros;
    unfold generate_structured_output, params_get, dict_get;
    rewrite Ha, Hp; cbn [no_algo is_empty];
    change (default "" (Some ?a)) with a;
    repeat match goal with
           | H : params !! _ = None |- _ => rewrite H; clear H
           end;
    reflexivity.
Qed.

(** X28.  A detected algorithm that is none of the four names is rendered
    as a custom execution of the original input with confidence 0.7; the
    parameters are not read, so this branch never raises. *)
Theorem renderer_unknown_algorithm (st : TraderTextState) (token : string) :
  detected_algo st = Some token ->
  is_empty token = false ->
  AlgoType_of token = None ->
  generate_structured_output py_repr st
  = Ret (render st ("Custom execution: " +:+ input_text st) 0.7).
Proof.
  intros Ha Hne Hnot. unfold generate_structured_output. rewrite Ha.
  cbn [no_algo]. rewrite Hne. change (default "" (Some token)) with token.
  unfold AlgoType_of in Hnot.
  destruct (String.eqb token "vwap"); [discriminate|].
  destruct (String.eqb token "twap"); [discriminate|].
  destruct (String.eqb token "pov"); [discriminate|].
  destruct (String.eqb token "implementation_shortfall"); [discriminate|].
  reflexivity.
Qed.


End Renderer.

Lemma renderer_defaults_witness :
  generate_structured_output no_repr (with_parameters twap_detected EMPTY)
  = Ret (render (with_parameters twap_detected EMPTY)
                "TWAP execution over full day" 0.92).
Proof.
  apply (proj1 (proj2 (renderer_defaults no_repr
                         (with_parameters twap_detected EMPTY) ∅ eq_refl)));
    reflexivity.
Defined.

Lemma renderer_unknown_algorithm_witness :
  generate_structured_output no_repr
    (with_detected_algo (normalize_input (initial_state "ride the trend"))
                        (Some "momentum"))
  = Ret (render
           (with_detected_algo (normalize_input (initial_state "ride the trend"))
                               (Some "momentum"))
           "Custom execution: ride the trend" 0.7).
Proof.
  exact (renderer_unknown_algorithm no_repr
           (with_detected_algo (normalize_input (initial_state "ride the trend"))
                               (Some "momentum"))
           "momentum" eq_refl eq_refl eq_refl).
Defined.

